(** * CEP temperature system: a shallow embedding of the two services

    The repository holds two Go services.  Service A (the gateway,
    [handleCEP]) validates a postal code (CEP) and forwards the request to
    service B (the orchestrator, [handleTemperature]), which resolves the
    CEP to a city ([fetchCityFromCEP]), the city to a temperature
    ([fetchTemperature]) and converts the reading to Fahrenheit and Kelvin.

    Modelling choices.
    - A Go [string] is a sequence of bytes: it is a [string] here, whose
      characters ([ascii]) are bytes, and [len] is [String.length].
    - A Go [error] is observed by the handlers only through [err.Error()]:
      an error is its text.  A [(T, error)] result is a [result T].
    - [float64] is the binary64 type [float] of the standard library, with
      its IEEE 754 operations evaluated one at a time (no fused multiply-add).
    - The outside world (the peers answering [client.Do], the library
      scanners of [encoding/json], [strconv.ParseFloat], [url.QueryEscape],
      [json.Marshal]) is a parameter of the handlers.  Every outbound
      [client.Do] is recorded in a log, so that "no call is made" and
      "this value reaches the geocoding client" are statements about the log.
    - OpenTelemetry spans only record what happens; they never change the
      control flow or the response and are left out. *)

From Stdlib Require Import ZArith List String Ascii Bool Lia PrimFloat.
Import ListNotations.

#[local] Open Scope string_scope.
#[local] Open Scope Z_scope.
#[local] Set Warnings "-inexact-float".

(** ** Bytes and strings *)

Definition byte_val (c : ascii) : Z := Z.of_N (N_of_ascii c).

(** [len(s)] *)
Definition len (s : string) : Z := Z.of_nat (String.length s).

Definition isDigit (c : ascii) : bool :=
  (48 <=? byte_val c) && (byte_val c <=? 57).

Fixpoint allDigits (s : string) : bool :=
  match s with
  | EmptyString => true
  | String c s' => isDigit c && allDigits s'
  end.

(** The line feed [fmt.Fprintln] and [Encoder.Encode] end their output with. *)
Definition newline : string := String "010" EmptyString.

(** ** strconv.Atoi (Go standard library, used by [isValidCEP]) *)

Module strconv.

Inductive NumError := ErrSyntax | ErrRange.

(** [int] is 64 bits wide on the targets the services are built for. *)
Definition intSize : Z := 64.
Definition maxUint64 : Z := 2 ^ 64 - 1.

Definition isSign (c : ascii) : bool :=
  (c =? "-")%char || (c =? "+")%char.

(** [ch -= '0'] on a [byte]: the subtraction wraps modulo 256. *)
Definition sub0 (ch : ascii) : Z := (byte_val ch - 48) mod 256.

(** The loop of the fast path:
    [for _, ch := range []byte(s) { ch -= '0'; if ch > 9 { return 0, syntaxError }; n = n*10 + int(ch) }] *)
Fixpoint fastLoop (s : string) (n : Z) : option Z :=
  match s with
  | EmptyString => Some n
  | String ch s' =>
      let d := sub0 ch in
      if 9 <? d then None else fastLoop s' (n * 10 + d)
  end.

(** The loop of [ParseUint(s, 10, 64)]: a character that is not a decimal
    digit is a syntax error, and the first overflow stops the scan with
    a range error. *)
Fixpoint parseUintLoop (s : string) (n : Z) : Z * option NumError :=
  match s with
  | EmptyString => (n, None)
  | String c s' =>
      if negb (isDigit c) then (0, Some ErrSyntax)
      else
        let d := byte_val c - 48 in
        if maxUint64 / 10 + 1 <=? n then (maxUint64, Some ErrRange)
        else
          let n10 := n * 10 in
          let n1 := (n10 + d) mod 2 ^ 64 in
          if (n1 <? n10) || (maxUint64 <? n1) then (maxUint64, Some ErrRange)
          else parseUintLoop s' n1
  end.

Definition ParseUint10 (s : string) : Z * option NumError :=
  match s with
  | EmptyString => (0, Some ErrSyntax)
  | _ => parseUintLoop s 0
  end.

(** [ParseInt(s, 10, 0)] *)
Definition ParseInt10 (s : string) : Z * option NumError :=
  match s with
  | EmptyString => (0, Some ErrSyntax)
  | String c0 rest =>
      let neg := (c0 =? "-")%char in
      let s1 := if isSign c0 then rest else s in
      match ParseUint10 s1 with
      | (_, Some ErrSyntax) => (0, Some ErrSyntax)
      | (un, _) =>
          let cutoff := 2 ^ (intSize - 1) in
          if negb neg && (cutoff <=? un) then (cutoff - 1, Some ErrRange)
          else if neg && (cutoff <? un) then (- cutoff, Some ErrRange)
          else (if neg then - un else un, None)
      end
  end.

(** [Atoi]: the fast path for short strings, [ParseInt] for the rest. *)
Definition Atoi (s : string) : Z * option NumError :=
  let sLen := len s in
  if (0 <? sLen) && (sLen <? 19) then
    match s with
    | EmptyString => (0, Some ErrSyntax)
    | String c0 rest =>
        if isSign c0 && (len rest <? 1) then (0, Some ErrSyntax)
        else
          match fastLoop (if isSign c0 then rest else s) 0 with
          | None => (0, Some ErrSyntax)
          | Some n => (if (c0 =? "-")%char then - n else n, None)
          end
    end
  else ParseInt10 s.

End strconv.

(** ** Service A: the postal validator *)

(** [func isValidCEP(cep string) bool] *)
Definition isValidCEP (cep : string) : bool :=
  if negb (len cep =? 8) then false
  else
    match strconv.Atoi cep with
    | (_, None) => true
    | (_, Some _) => false
    end.

(** ** Errors, results and the log of outbound calls *)

(** The text [err.Error()] of a Go error. *)
Definition error := string.

Inductive result (A : Type) : Type :=
| Ok (a : A)
| Err (err : error).
Arguments Ok {A} a.
Arguments Err {A} err.

(** What [io.Reader] yields when read to the end: the bytes, then either the
    end of the stream or a read error. *)
Record ReadCloser := { data : string; readErr : option error }.

Definition bytesReader (b : string) : ReadCloser :=
  {| data := b; readErr := None |}.

(** [io.ReadAll] *)
Definition ReadAll (r : ReadCloser) : result string :=
  match readErr r with
  | Some err => Err err
  | None => Ok (data r)
  end.

Definition Header := list (string * string).

Definition Header_Del (k : string) (h : Header) : Header :=
  filter (fun kv => negb (fst kv =? k)%string) h.

Definition Header_Set (k v : string) (h : Header) : Header :=
  (k, v) :: Header_Del k h.

(** An outbound [*http.Request]. *)
Record Request := {
  Method : string;
  URL : string;
  ReqHeader : Header;
  ReqBody : option string
}.

(** The [*http.Response] a client receives. *)
Record Response := {
  StatusCode : Z;
  Body : ReadCloser
}.

(** Programs that log the requests they send with [client.Do]. *)
Definition Log := list Request.
Definition Prog (A : Type) : Type := Log -> A * Log.

Definition ret {A} (a : A) : Prog A := fun l => (a, l).

Definition bind {A B} (m : Prog A) (f : A -> Prog B) : Prog B :=
  fun l => let (a, l') := m l in f a l'.

Notation "x <- m ;; k" := (bind m (fun x => k))
  (at level 61, m at next level, right associativity).

Definition run {A} (m : Prog A) : A * Log := m [].

(** The peer behind [client.Do]: it answers a request, and may send
    requests of its own while it does. *)
Definition Transport := Request -> result Response * Log.

(** An external provider: a black box that sends nothing we observe. *)
Definition external (f : Request -> result Response) : Transport :=
  fun req => (f req, []).

(** [client.Do(req)]: the request is logged, then what the peer sent, and
    the peer's answer is returned. *)
Definition client_Do (net : Transport) (req : Request) : Prog (result Response) :=
  fun l => let (r, sent) := net req in (r, (l ++ req :: sent)%list).

(** ** JSON values, as delivered by the scanner of encoding/json *)

#[local] Unset Elimination Schemes.
Inductive json :=
| JNull
| JBool (b : bool)
| JNumber (literal : string)
| JString (s : string)
| JArray (items : list json)
| JObject (members : list (string * json)).
#[local] Set Elimination Schemes.

(** The word [UnmarshalTypeError.Value] uses for a JSON value. *)
Definition jsonKind (j : json) : string :=
  match j with
  | JNull => "null"
  | JBool _ => "bool"
  | JNumber _ => "number"
  | JString _ => "string"
  | JArray _ => "array"
  | JObject _ => "object"
  end.

(** ** The structs of the two services *)

(** [type CEPRequest struct { CEP string `json:"cep"` }], declared alike in
    both services. *)
Record CEPRequest := { CEP : string }.

(** [type ViaCEPResponse struct { Localidade string `json:"localidade"` }] *)
Record ViaCEPResponse := { Localidade : string }.

(** [type WeatherAPIResponse struct] with its two anonymous structs. *)
Module WeatherAPIResponse.
Record Current_t := { TempC : float }.
Record Location_t := { Name : string }.
Record t := { Current : Current_t; Location : Location_t }.
(** [var weatherResp WeatherAPIResponse]: the zero value. *)
Definition zero : t :=
  {| Current := {| TempC := 0%float |};
     Location := {| Name := EmptyString |} |}.
End WeatherAPIResponse.

(** [type TemperatureResponse struct] *)
Module TemperatureResponse.
Record t := { City : string; TempC : float; TempF : float; TempK : float }.
End TemperatureResponse.

(** ** The libraries the services call *)

Class Library := {
  (** [json.NewDecoder(r).Decode]: the scanner reads the next JSON value of
      a stream, or fails (syntax error, read error, end of input). *)
  scanStream : ReadCloser -> result json;
  (** [json.Unmarshal]: the scanner checks and reads a whole byte slice. *)
  scanBytes : string -> result json;
  (** [strconv.ParseFloat(s, 64)], [None] when it reports an error. *)
  ParseFloat : string -> option float;
  (** The text of [*json.UnmarshalTypeError] for a value, a field path and
      a Go type. *)
  UnmarshalTypeError : string -> string -> string -> error;
  (** [json.Marshal] of a [CEPRequest]. *)
  Marshal_CEPRequest : CEPRequest -> result string;
  (** [json.Marshal] of a [TemperatureResponse]. *)
  Marshal_TemperatureResponse : TemperatureResponse.t -> result string;
  (** The reason [http.NewRequestWithContext] refuses a method and URL. *)
  newRequestErr : string -> string -> option error;
  (** [url.QueryEscape] *)
  QueryEscape : string -> string;
  (** [otel.GetTextMapPropagator().Inject]: the trace headers added to an
      outbound request. *)
  Inject : Header -> Header
}.

(** ** net/http: the server side *)

Module http.

Definition StatusOK : Z := 200.
Definition StatusBadRequest : Z := 400.
Definition StatusNotFound : Z := 404.
Definition StatusUnprocessableEntity : Z := 422.
Definition StatusInternalServerError : Z := 500.
Definition StatusSwitchingProtocols : Z := 101.

(** The state behind an [http.ResponseWriter]: the header map, the status
    line once written, the interim (1xx) responses and the body sent. *)
Record ResponseWriter := {
  header : Header;
  status : option Z;
  interim : list Z;
  body : string
}.

Definition newResponse : ResponseWriter :=
  {| header := []; status := None; interim := []; body := EmptyString |}.

Definition setHeader (f : Header -> Header) (w : ResponseWriter) : ResponseWriter :=
  {| header := f (header w); status := status w;
     interim := interim w; body := body w |}.

(** [w.WriteHeader(code)].  [None] is the panic of [checkWriteHeaderCode]:
    the handler stops and the connection is dropped without a response. *)
Definition WriteHeader (code : Z) (w : ResponseWriter) : option ResponseWriter :=
  match status w with
  | Some _ => Some w
  | None =>
      if (code <? 100) || (999 <? code) then None
      else if (code <=? 199) && negb (code =? StatusSwitchingProtocols) then
        Some {| header := header w; status := None;
                interim := (interim w ++ [code])%list; body := body w |}
      else
        Some {| header := header w; status := Some code;
                interim := interim w; body := body w |}
  end.

Definition bodyAllowedForStatus (code : Z) : bool :=
  negb (((100 <=? code) && (code <=? 199)) || (code =? 204) || (code =? 304)).

(** [w.Write(p)]: the header goes out with status 200 if it was not
    written yet; the bytes are dropped when the status allows no body. *)
Definition Write (p : string) (w : ResponseWriter) : ResponseWriter :=
  let st := match status w with Some c => c | None => StatusOK end in
  {| header := header w; status := Some st; interim := interim w;
     body := if bodyAllowedForStatus st then body w ++ p else body w |}.

(** [http.Error(w, error, code)] *)
Definition Error (w : ResponseWriter) (msg : string) (code : Z) : option ResponseWriter :=
  let w1 := setHeader (Header_Del "Content-Length") w in
  let w2 := setHeader (Header_Set "Content-Type" "text/plain; charset=utf-8") w1 in
  let w3 := setHeader (Header_Set "X-Content-Type-Options" "nosniff") w2 in
  match WriteHeader code w3 with
  | None => None
  | Some w4 => Some (Write (msg ++ newline) w4)
  end.

(** The status the client reads once the handler has returned. *)
Definition finalStatus (w : ResponseWriter) : Z :=
  match status w with Some c => c | None => StatusOK end.

(** [http.NewRequestWithContext(ctx, method, url, body)] *)
Definition NewRequestWithContext `{Library} (method url : string)
    (body : option string) : result Request :=
  match newRequestErr method url with
  | Some err => Err err
  | None => Ok {| Method := method; URL := url; ReqHeader := []; ReqBody := body |}
  end.

End http.

(** ** encoding/json: storing a scanned value into a struct

    A struct starts from its current value; each member of the JSON object
    whose key names a field (exactly, or up to letter case) is stored into
    that field, other members are skipped, and [null] stores nothing.  A
    value of the wrong kind is an [UnmarshalTypeError]. *)

Definition upper (c : ascii) : ascii :=
  if (97 <=? byte_val c) && (byte_val c <=? 122)
  then ascii_of_N (N_of_ascii c - 32)
  else c.

Fixpoint foldName (s : string) : string :=
  match s with
  | EmptyString => EmptyString
  | String c s' => String (upper c) (foldName s')
  end.

(** The field names of the services are ASCII words without [s] or [k], for
    which the case folding of encoding/json is the ASCII one. *)
Definition isField (name key : string) : bool :=
  (foldName key =? foldName name)%string.

Section Unmarshal.
Context `{Library}.

Definition storeString (path : string) (v : json) (old : string) : result string :=
  match v with
  | JNull => Ok old
  | JString s => Ok s
  | _ => Err (UnmarshalTypeError (jsonKind v) path "string")
  end.

Definition storeFloat64 (path : string) (v : json) (old : float) : result float :=
  match v with
  | JNull => Ok old
  | JNumber lit =>
      match ParseFloat lit with
      | Some f => Ok f
      | None => Err (UnmarshalTypeError ("number " ++ lit) path "float64")
      end
  | _ => Err (UnmarshalTypeError (jsonKind v) path "float64")
  end.

Fixpoint storeMembers {S : Type} (field : string -> json -> S -> result S)
    (members : list (string * json)) (s : S) : result S :=
  match members with
  | [] => Ok s
  | (key, v) :: rest =>
      match field key v s with
      | Err err => Err err
      | Ok s' => storeMembers field rest s'
      end
  end.

Definition storeStruct {S : Type} (path gotype : string)
    (field : string -> json -> S -> result S) (v : json) (old : S) : result S :=
  match v with
  | JNull => Ok old
  | JObject members => storeMembers field members old
  | _ => Err (UnmarshalTypeError (jsonKind v) path gotype)
  end.

Definition CEPRequest_field (key : string) (v : json) (s : CEPRequest)
    : result CEPRequest :=
  if isField "cep" key then
    match storeString "cep" v (CEP s) with
    | Err err => Err err
    | Ok x => Ok {| CEP := x |}
    end
  else Ok s.

Definition ViaCEPResponse_field (key : string) (v : json) (s : ViaCEPResponse)
    : result ViaCEPResponse :=
  if isField "localidade" key then
    match storeString "localidade" v (Localidade s) with
    | Err err => Err err
    | Ok x => Ok {| Localidade := x |}
    end
  else Ok s.

Definition Current_field (key : string) (v : json)
    (s : WeatherAPIResponse.Current_t) : result WeatherAPIResponse.Current_t :=
  if isField "temp_c" key then
    match storeFloat64 "current.temp_c" v (WeatherAPIResponse.TempC s) with
    | Err err => Err err
    | Ok x => Ok {| WeatherAPIResponse.TempC := x |}
    end
  else Ok s.

Definition Location_field (key : string) (v : json)
    (s : WeatherAPIResponse.Location_t) : result WeatherAPIResponse.Location_t :=
  if isField "name" key then
    match storeString "location.name" v (WeatherAPIResponse.Name s) with
    | Err err => Err err
    | Ok x => Ok {| WeatherAPIResponse.Name := x |}
    end
  else Ok s.

Definition WeatherAPIResponse_field (key : string) (v : json)
    (s : WeatherAPIResponse.t) : result WeatherAPIResponse.t :=
  if isField "current" key then
    match storeStruct "current" "struct { TempC float64 }" Current_field v
            (WeatherAPIResponse.Current s) with
    | Err err => Err err
    | Ok x => Ok {| WeatherAPIResponse.Current := x;
                    WeatherAPIResponse.Location := WeatherAPIResponse.Location s |}
    end
  else if isField "location" key then
    match storeStruct "location" "struct { Name string }" Location_field v
            (WeatherAPIResponse.Location s) with
    | Err err => Err err
    | Ok x => Ok {| WeatherAPIResponse.Current := WeatherAPIResponse.Current s;
                    WeatherAPIResponse.Location := x |}
    end
  else Ok s.

(** [var req CEPRequest; json.NewDecoder(r.Body).Decode(&req)] *)
Definition Decode_CEPRequest (r : ReadCloser) : result CEPRequest :=
  match scanStream r with
  | Err err => Err err
  | Ok v => storeStruct EmptyString "main.CEPRequest" CEPRequest_field v
              {| CEP := EmptyString |}
  end.

(** [var viaCEPResp ViaCEPResponse; json.Unmarshal(body, &viaCEPResp)] *)
Definition Unmarshal_ViaCEPResponse (b : string) : result ViaCEPResponse :=
  match scanBytes b with
  | Err err => Err err
  | Ok v => storeStruct EmptyString "main.ViaCEPResponse" ViaCEPResponse_field v
              {| Localidade := EmptyString |}
  end.

(** [var weatherResp WeatherAPIResponse; json.NewDecoder(resp.Body).Decode(&weatherResp)] *)
Definition Decode_WeatherAPIResponse (r : ReadCloser) : result WeatherAPIResponse.t :=
  match scanStream r with
  | Err err => Err err
  | Ok v => storeStruct EmptyString "main.WeatherAPIResponse"
              WeatherAPIResponse_field v WeatherAPIResponse.zero
  end.

End Unmarshal.

(** A JSON object has a member stored into the field [name]. *)
Definition hasMember (name : string) (members : list (string * json)) : bool :=
  existsb (fun kv => isField name (fst kv)) members.

(** A scanned weather answer without any [current.temp_c]: an object (or
    [null]) in which every member stored into [Current] is [null] or an
    object with no member stored into [TempC]. *)
Definition lacksTempC (v : json) : bool :=
  match v with
  | JNull => true
  | JObject members =>
      forallb
        (fun kv =>
           negb (isField "current" (fst kv)) ||
           match snd kv with
           | JNull => true
           | JObject inner => negb (hasMember "temp_c" inner)
           | _ => false
           end)
        members
  | _ => false
  end.

(** [json.NewEncoder(w).Encode(response)]: the encoding and a line feed are
    written to [w], or nothing when the value cannot be encoded. *)
Definition Encode_TemperatureResponse `{Library} (w : http.ResponseWriter)
    (response : TemperatureResponse.t) : http.ResponseWriter :=
  match Marshal_TemperatureResponse response with
  | Err err => w
  | Ok b => http.Write (b ++ newline) w
  end.

(** [req.Header] changed by [f]. *)
Definition setRequestHeader (f : Header -> Header) (req : Request) : Request :=
  {| Method := Method req; URL := URL req; ReqHeader := f (ReqHeader req);
     ReqBody := ReqBody req |}.

(** ** Service B: the downstream orchestrator *)

Module ServiceB.
Section ServiceB.
Context `{Library}.
(** The providers reached by [client.Do]. *)
Variable net : Transport.

Definition weatherAPIKey : string := "ef75abdde5f840bca86181556251603".
Definition weatherAPIURL : string := "http://api.weatherapi.com/v1/current.json".

(** [func fetchCityFromCEP(ctx context.Context, cep string) (string, error)] *)
Definition fetchCityFromCEP (cep : string) : Prog (result string) :=
  let url := "https://viacep.com.br/ws/" ++ cep ++ "/json/" in
  match http.NewRequestWithContext "GET" url None with
  | Err err => ret (Err err)
  | Ok req =>
      r <- client_Do net req ;;
      match r with
      | Err err => ret (Err err)
      | Ok resp =>
          if StatusCode resp =? http.StatusBadRequest then
            ret (Err "invalid zipcode")
          else if StatusCode resp =? http.StatusNotFound then
            ret (Err "can not find zipcode")
          else
            match ReadAll (Body resp) with
            | Err err => ret (Err err)
            | Ok body =>
                match Unmarshal_ViaCEPResponse body with
                | Err err => ret (Err err)
                | Ok viaCEPResp =>
                    if (Localidade viaCEPResp =? EmptyString)%string then
                      ret (Err "city not found")
                    else ret (Ok (Localidade viaCEPResp))
                end
            end
      end
  end.

(** [func fetchTemperature(ctx context.Context, city string) (float64, error)] *)
Definition fetchTemperature (city : string) : Prog (result float) :=
  let encodedCity := QueryEscape city in
  let url := weatherAPIURL ++ "?key=" ++ weatherAPIKey ++ "&q=" ++ encodedCity
             ++ "&aqi=no" in
  match http.NewRequestWithContext "GET" url None with
  | Err err => ret (Err ("failed to create request: " ++ err))
  | Ok req =>
      r <- client_Do net req ;;
      match r with
      | Err err => ret (Err ("API request failed: " ++ err))
      | Ok resp =>
          if negb (StatusCode resp =? http.StatusOK) then
            (* [body, _ := io.ReadAll(resp.Body)]: what was read so far *)
            ret (Err ("API error: " ++ data (Body resp)))
          else
            match Decode_WeatherAPIResponse (Body resp) with
            | Err err => ret (Err ("failed to decode response: " ++ err))
            | Ok weatherResp =>
                let tempC :=
                  WeatherAPIResponse.TempC (WeatherAPIResponse.Current weatherResp) in
                if (tempC =? 0)%float then
                  ret (Err "invalid temperature data")
                else ret (Ok tempC)
            end
      end
  end.

(** [func handleTemperature(w http.ResponseWriter, r *http.Request)];
    [r] is the body of the request. *)
Definition handleTemperature (w : http.ResponseWriter) (r : ReadCloser)
    : Prog (option http.ResponseWriter) :=
  match Decode_CEPRequest r with
  | Err err =>
      ret (http.Error w "invalid request body" http.StatusBadRequest)
  | Ok req =>
      c <- fetchCityFromCEP (CEP req) ;;
      match c with
      | Err err =>
          if (err =? "invalid zipcode")%string then
            ret (http.Error w "invalid zipcode" http.StatusUnprocessableEntity)
          else if (err =? "city not found")%string then
            ret (http.Error w "can not find zipcode" http.StatusNotFound)
          else
            ret (http.Error w "failed to fetch city" http.StatusInternalServerError)
      | Ok city =>
          t <- fetchTemperature city ;;
          match t with
          | Err err =>
              ret (http.Error w "failed to fetch temperature"
                     http.StatusInternalServerError)
          | Ok tempC =>
              let tempF := (tempC * 1.8 + 32)%float in
              let tempK := (tempC + 273)%float in
              let response :=
                {| TemperatureResponse.City := city;
                   TemperatureResponse.TempC := tempC;
                   TemperatureResponse.TempF := tempF;
                   TemperatureResponse.TempK := tempK |} in
              let w1 :=
                http.setHeader (Header_Set "Content-Type" "application/json") w in
              ret (Some (Encode_TemperatureResponse w1 response))
          end
      end
  end.

End ServiceB.
End ServiceB.

(** The URL [fetchTemperature] builds for a city. *)
Definition weatherURLFor `{Library} (city : string) : string :=
  ServiceB.weatherAPIURL ++ "?key=" ++ ServiceB.weatherAPIKey ++ "&q="
  ++ QueryEscape city ++ "&aqi=no".

(** ** Service A: the upstream gateway *)

Module ServiceA.
Section ServiceA.
Context `{Library}.
(** The peer reached by [client.Do]: service B behind the network. *)
Variable net : Transport.

(** [func handleCEP(w http.ResponseWriter, r *http.Request)];
    [r] is the body of the request. *)
Definition handleCEP (w : http.ResponseWriter) (r : ReadCloser)
    : Prog (option http.ResponseWriter) :=
  match Decode_CEPRequest r with
  | Err err =>
      ret (http.Error w "invalid request body" http.StatusBadRequest)
  | Ok req =>
      if negb (isValidCEP (CEP req)) then
        ret (http.Error w "invalid zipcode" http.StatusUnprocessableEntity)
      else
        let serviceBURL := "http://service-b:8081/temperature" in
        match Marshal_CEPRequest req with
        | Err err =>
            ret (http.Error w "internal server error" http.StatusInternalServerError)
        | Ok reqBody =>
            match http.NewRequestWithContext "POST" serviceBURL (Some reqBody) with
            | Err err =>
                ret (http.Error w "internal server error"
                       http.StatusInternalServerError)
            | Ok httpReq =>
                let httpReq :=
                  setRequestHeader (Header_Set "Content-Type" "application/json")
                    (setRequestHeader Inject httpReq) in
                r <- client_Do net httpReq ;;
                match r with
                | Err err =>
                    ret (http.Error w "failed to call service b"
                           http.StatusInternalServerError)
                | Ok resp =>
                    match ReadAll (Body resp) with
                    | Err err =>
                        ret (http.Error w "internal server error"
                               http.StatusInternalServerError)
                    | Ok body =>
                        let w1 :=
                          http.setHeader
                            (Header_Set "Content-Type" "application/json") w in
                        match http.WriteHeader (StatusCode resp) w1 with
                        | None => ret None
                        | Some w2 => ret (Some (http.Write body w2))
                        end
                    end
                end
            end
        end
  end.

End ServiceA.
End ServiceA.

(** ** The two services together

    Service A posts to [http://service-b:8081/temperature], the one route
    service B registers, for [handleTemperature].  [link] is the network
    between the two: it may fail a call before service B sees it. *)

Module Pipeline.
Section Pipeline.
Context `{Library}.
(** The geocoding and weather providers service B calls. *)
Variable providers : Transport.
Variable link : Request -> option error.

(** What the client of service A reads from the reply of service B. *)
Definition deliver (reply : option http.ResponseWriter) : result Response :=
  match reply with
  | None => Err "EOF"
  | Some w =>
      Ok {| StatusCode := http.finalStatus w; Body := bytesReader (http.body w) |}
  end.

Definition requestBody (req : Request) : ReadCloser :=
  bytesReader (match ReqBody req with Some b => b | None => EmptyString end).

Definition serviceB : Transport :=
  fun req =>
    match link req with
    | Some err => (Err err, [])
    | None =>
        let (reply, sent) :=
          run (ServiceB.handleTemperature providers http.newResponse
                 (requestBody req)) in
        (deliver reply, sent)
    end.

(** A request to [POST /cep], end to end. *)
Definition handle (r : ReadCloser) : Prog (option http.ResponseWriter) :=
  ServiceA.handleCEP serviceB http.newResponse r.

End Pipeline.
End Pipeline.

(** ** A concrete world

    A small library and providers on which the handlers can be run: the
    scanner knows the few JSON texts below, and the providers answer as the
    real ones do for these postal codes. *)

Module Demo.

Definition q : string := String "034" EmptyString.

(** The text [{"k":"v"}]. *)
Definition obj1 (k v : string) : string :=
  "{" ++ q ++ k ++ q ++ ":" ++ q ++ v ++ q ++ "}".

(** The text [{"erro":true}] ViaCEP answers for an unknown postal code. *)
Definition erroBody : string := "{" ++ q ++ "erro" ++ q ++ ":true}".

(** The text [{"current":{"temp_c":22.5}}]. *)
Definition weatherBody : string :=
  "{" ++ q ++ "current" ++ q ++ ":{" ++ q ++ "temp_c" ++ q ++ ":22.5}}".

(** The text [{"current":{"temp_c":0}}]. *)
Definition freezingBody : string :=
  "{" ++ q ++ "current" ++ q ++ ":{" ++ q ++ "temp_c" ++ q ++ ":0}}".

Definition cepObject (cep : string) : string * json :=
  (obj1 "cep" cep, JObject [("cep", JString cep)]).

Definition texts : list (string * json) :=
  [ cepObject "01001000"; cepObject "123"; cepObject "-1234567";
    cepObject "00000000"; cepObject "99999999";
    (obj1 "localidade" "Curitiba", JObject [("localidade", JString "Curitiba")]);
    (erroBody, JObject [("erro", JBool true)]);
    (weatherBody, JObject [("current", JObject [("temp_c", JNumber "22.5")])]);
    (freezingBody, JObject [("current", JObject [("temp_c", JNumber "0")])]);
    ("{}", JObject []) ].

Fixpoint lookup (s : string) (table : list (string * json)) : result json :=
  match table with
  | [] => Err "invalid character 'c' looking for beginning of value"
  | (t, v) :: rest => if (s =? t)%string then Ok v else lookup s rest
  end.

Definition temperatureText (r : TemperatureResponse.t) : result string :=
  if (TemperatureResponse.TempC r =? 22.5)%float then
    Ok ("{" ++ q ++ "city" ++ q ++ ":" ++ q ++ TemperatureResponse.City r ++ q
        ++ "," ++ q ++ "temp_C" ++ q ++ ":22.5," ++ q ++ "temp_F" ++ q
        ++ ":72.5," ++ q ++ "temp_K" ++ q ++ ":295.5}")
  else Err "json: unsupported value".

#[local] Instance library : Library := {|
  scanStream r :=
    match readErr r with
    | Some err => Err err
    | None => lookup (data r) texts
    end;
  scanBytes b := lookup b texts;
  ParseFloat s :=
    if (s =? "22.5")%string then Some 22.5%float
    else if (s =? "0")%string then Some 0%float
    else None;
  UnmarshalTypeError v path t :=
    "json: cannot unmarshal " ++ v ++ " into Go struct field " ++ path
    ++ " of type " ++ t;
  Marshal_CEPRequest req := Ok (obj1 "cep" (CEP req));
  Marshal_TemperatureResponse := temperatureText;
  newRequestErr _ _ := None;
  QueryEscape s := s;
  Inject h := h
|}.

Definition answer (code : Z) (b : string) : result Response :=
  Ok {| StatusCode := code; Body := bytesReader b |}.

Definition weatherURL : string :=
  ServiceB.weatherAPIURL ++ "?key=" ++ ServiceB.weatherAPIKey
  ++ "&q=Curitiba&aqi=no".

(** ViaCEP knows 01001000, has no record for 00000000, answers 404 for
    99999999 and rejects anything else; the weather provider answers
    [weather]. *)
Definition providers (weather : result Response) : Transport :=
  external (fun req =>
    if (URL req =? "https://viacep.com.br/ws/01001000/json/")%string then
      answer 200 (obj1 "localidade" "Curitiba")
    else if (URL req =? "https://viacep.com.br/ws/00000000/json/")%string then
      answer 200 erroBody
    else if (URL req =? "https://viacep.com.br/ws/99999999/json/")%string then
      answer 404 EmptyString
    else if (URL req =? weatherURL)%string then weather
    else answer 400 EmptyString).

Definition sunny : result Response := answer 200 weatherBody.

(** A weather provider in trouble. *)
Definition stormy : result Response := answer 503 "upstream unavailable".

(** Providers that cannot be reached. *)
Definition offline : Transport :=
  external (fun _ => Err "dial tcp: lookup viacep.com.br: no such host").

(** A network between the services that never fails, and one that is down. *)
Definition reliable : Request -> option error := fun _ => None.
Definition down : Request -> option error :=
  fun _ => Some "dial tcp: connect: connection refused".

(** The requests the services build in this world. *)
Definition viacepGet (cep : string) : Request :=
  {| Method := "GET"; URL := "https://viacep.com.br/ws/" ++ cep ++ "/json/";
     ReqHeader := []; ReqBody := None |}.

Definition weatherGet : Request :=
  {| Method := "GET"; URL := weatherURL; ReqHeader := []; ReqBody := None |}.

Definition post (cep : string) : Request :=
  {| Method := "POST"; URL := "http://service-b:8081/temperature";
     ReqHeader := []; ReqBody := Some (obj1 "cep" cep) |}.

Definition posted (cep : string) : Request :=
  setRequestHeader (Header_Set "Content-Type" "application/json")
    (setRequestHeader Inject (post cep)).

(** The body of a request to either service for a postal code. *)
Definition ask (cep : string) : ReadCloser := bytesReader (obj1 "cep" cep).

End Demo.

(** ** Shapes of scanned values

    Words for the statements about decoding: which members of a scanned
    object are stored into a field of the struct, and whether they fit. *)

Definition isStringOrNull (v : json) : bool :=
  match v with
  | JNull | JString _ => true
  | _ => false
  end.

(** Every member stored into the string field [name] is a string or
    [null]. *)
Definition stringsAt (name : string) (members : list (string * json)) : bool :=
  forallb (fun kv => negb (isField name (fst kv)) || isStringOrNull (snd kv))
    members.

(** Nothing is stored into the field [name]: the value is [null], or an
    object without such a member. *)
Definition lacksField (name : string) (v : json) : bool :=
  match v with
  | JNull => true
  | JObject members => negb (hasMember name members)
  | _ => false
  end.

(** The value cannot be stored into a struct whose only field is the string
    field [name]: it is not an object, or a member stored into the field is
    neither a string nor [null]. *)
Definition mistyped (name : string) (v : json) : bool :=
  match v with
  | JNull => false
  | JObject members => negb (stringsAt name members)
  | _ => true
  end.

(** ** A second concrete world

    Answers shaped like the ones the real providers give, with members the
    structs do not declare, and a few malformed requests.  The scanner
    knows the texts [render] prints. *)

Module World.

Definition str (s : string) : string := Demo.q ++ s ++ Demo.q.

Fixpoint render (j : json) : string :=
  match j with
  | JNull => "null"
  | JBool b => if b then "true" else "false"
  | JNumber lit => lit
  | JString s => str s
  | JArray items =>
      "[" ++ (fix go (l : list json) : string :=
                match l with
                | [] => EmptyString
                | x :: l' =>
                    render x ++ match l' with [] => EmptyString | _ => "," ++ go l' end
                end) items ++ "]"
  | JObject members =>
      "{" ++ (fix go (l : list (string * json)) : string :=
                match l with
                | [] => EmptyString
                | (k, v) :: l' =>
                    str k ++ ":" ++ render v
                    ++ match l' with [] => EmptyString | _ => "," ++ go l' end
                end) members ++ "}"
  end.

Definition numberCep : json := JObject [("cep", JNumber "1001000")].
Definition upperCep : json := JObject [("CEP", JString "01001000")].
Definition twoCeps : json :=
  JObject [("cep", JString "123"); ("cep", JString "01001000")].
Definition otherKey : json := JObject [("zipcode", JString "01001000")].

Definition viacepAnswer : json :=
  JObject [("cep", JString "01001-000"); ("logradouro", JString "Praca da Se");
           ("localidade", JString "Sao Paulo"); ("uf", JString "SP")].

Definition weatherAnswer (temp_c : string) : json :=
  JObject [("location", JObject [("name", JString "Sao Paulo");
                                 ("lat", JNumber "-23.53")]);
           ("current", JObject [("last_updated", JString "2025-03-16 12:00");
                                ("temp_c", JNumber temp_c);
                                ("humidity", JNumber "70")])].

Definition texts : list (string * json) :=
  (map (fun j => (render j, j))
     [ numberCep; upperCep; twoCeps; otherKey; JNull; JArray [];
       viacepAnswer; weatherAnswer "18.3"; weatherAnswer "1e308" ]
   ++ Demo.texts)%list.

Fixpoint plusForSpace (s : string) : string :=
  match s with
  | EmptyString => EmptyString
  | String c s' => String (if (c =? " ")%char then "+"%char else c) (plusForSpace s')
  end.

(** [json.Marshal] refuses a value with an infinite or undefined float. *)
Definition temperatureText (r : TemperatureResponse.t) : result string :=
  if negb (is_finite (TemperatureResponse.TempC r)
           && is_finite (TemperatureResponse.TempF r)
           && is_finite (TemperatureResponse.TempK r))
  then Err "json: unsupported value: +Inf"
  else if (TemperatureResponse.TempC r =? 18.3)%float then
    Ok (render (JObject [("city", JString (TemperatureResponse.City r));
                         ("temp_C", JNumber "18.3"); ("temp_F", JNumber "64.94");
                         ("temp_K", JNumber "291.3")]))
  else Demo.temperatureText r.

#[local] Instance library : Library := {|
  scanStream r :=
    match readErr r with
    | Some err => Err err
    | None => Demo.lookup (data r) texts
    end;
  scanBytes b := Demo.lookup b texts;
  ParseFloat s :=
    if (s =? "22.5")%string then Some 22.5%float
    else if (s =? "18.3")%string then Some 18.3%float
    else if (s =? "1e308")%string then Some 1e308%float
    else if (s =? "0")%string then Some 0%float
    else None;
  UnmarshalTypeError v path t :=
    "json: cannot unmarshal " ++ v ++ " into Go struct field " ++ path
    ++ " of type " ++ t;
  Marshal_CEPRequest req := Ok (Demo.obj1 "cep" (CEP req));
  Marshal_TemperatureResponse := temperatureText;
  newRequestErr _ _ := None;
  QueryEscape := plusForSpace;
  Inject h := h
|}.

Definition weatherGet : Request :=
  {| Method := "GET";
     URL := ServiceB.weatherAPIURL ++ "?key=" ++ ServiceB.weatherAPIKey
            ++ "&q=Sao+Paulo&aqi=no";
     ReqHeader := []; ReqBody := None |}.

(** ViaCEP knows 01001000 and rejects anything else; the weather provider
    answers [weather] with status 200. *)
Definition providers (weather : json) : Transport :=
  external (fun req =>
    if (URL req =? "https://viacep.com.br/ws/01001000/json/")%string then
      Demo.answer 200 (render viacepAnswer)
    else if (URL req =? URL weatherGet)%string then Demo.answer 200 (render weather)
    else Demo.answer 400 EmptyString).

(** The body of a request carrying the JSON value [j]. *)
Definition ask (j : json) : ReadCloser := bytesReader (render j).

(** Service B behind a network that never fails. *)
Definition reliableB (weather : json) : Transport :=
  Pipeline.serviceB (providers weather) Demo.reliable.

End World.

(** * Properties *)

(** ** The postal validator *)

Lemma sub0_isDigit (c : ascii) : (9 <? strconv.sub0 c) = negb (isDigit c).
Proof. destruct c as [[] [] [] [] [] [] [] []]; reflexivity. Qed.

Lemma fastLoop_allDigits (s : string) :
  forall n, (exists m, strconv.fastLoop s n = Some m) <-> allDigits s = true.
Proof.
  induction s as [|c s IH]; intro n; simpl.
  - split; [reflexivity | intros _; now exists n].
  - rewrite sub0_isDigit. destruct (isDigit c); simpl.
    + apply IH.
    + split; [intros [m Hm]; discriminate | discriminate].
Qed.

Lemma fastLoop_error (s : string) (n : Z) :
  strconv.fastLoop s n = None <-> allDigits s = false.
Proof.
  pose proof (fastLoop_allDigits s n) as [H1 H2].
  destruct (strconv.fastLoop s n) as [m|] eqn:E, (allDigits s) eqn:D;
    split; intro; try reflexivity; try discriminate.
  - specialize (H1 (ex_intro _ m eq_refl)). discriminate.
  - destruct (H2 eq_refl) as [m Hm]. discriminate.
Qed.

(** What [isValidCEP] accepts: eight bytes that are eight digits, or a sign
    and seven digits. *)
Lemma isValidCEP_spec (cep : string) :
  isValidCEP cep =
  (len cep =? 8) &&
  match cep with
  | EmptyString => false
  | String c0 rest => if strconv.isSign c0 then allDigits rest else allDigits cep
  end.
Proof.
  unfold isValidCEP. destruct (len cep =? 8) eqn:L; simpl; [|reflexivity].
  apply Z.eqb_eq in L. unfold strconv.Atoi. rewrite L. simpl.
  destruct cep as [|c0 rest]; [reflexivity|].
  assert (Hrest : len rest = 7).
  { unfold len in *. simpl String.length in L. lia. }
  rewrite Hrest.
  replace (7 <? 1) with false by reflexivity. rewrite andb_false_r.
  destruct (strconv.fastLoop (if strconv.isSign c0 then rest else String c0 rest) 0)
    as [m|] eqn:E.
  - symmetry. destruct (strconv.isSign c0);
      apply (fastLoop_allDigits _ 0); now exists m.
  - symmetry. destruct (strconv.isSign c0); now apply (fastLoop_error _ 0).
Qed.

(** Every string whose length is not 8 is rejected. *)
Lemma isValidCEP_rejects_length (cep : string) :
  len cep <> 8 -> isValidCEP cep = false.
Proof.
  intro H. rewrite isValidCEP_spec.
  apply Z.eqb_neq in H. now rewrite H.
Qed.

(** Every string of eight digits is accepted. *)
Lemma isValidCEP_accepts_digits (cep : string) :
  len cep = 8 -> allDigits cep = true -> isValidCEP cep = true.
Proof.
  intros L D. rewrite isValidCEP_spec.
  apply Z.eqb_eq in L. rewrite L. simpl.
  destruct cep as [|c0 rest]; [discriminate|].
  destruct (strconv.isSign c0) eqn:S; [|exact D].
  simpl in D. apply andb_prop in D as [D0 _].
  unfold strconv.isSign in S. apply orb_prop in S as [S|S];
    apply Ascii.eqb_eq in S; subst c0; discriminate.
Qed.

Example isValidCEP_examples :
  isValidCEP "01001000" = true /\ isValidCEP "00000000" = true /\
  isValidCEP "123" = false /\ isValidCEP "01001-000" = false /\
  isValidCEP "0100100a" = false /\ isValidCEP " 1001000" = false /\
  isValidCEP "010010000" = false /\ isValidCEP EmptyString = false.
Proof. repeat split; reflexivity. Qed.

Example Atoi_examples :
  strconv.Atoi "-1234567" = (-1234567, None) /\
  strconv.Atoi "0042" = (42, None) /\
  strconv.Atoi "+" = (0, Some strconv.ErrSyntax) /\
  strconv.Atoi "12a" = (0, Some strconv.ErrSyntax) /\
  strconv.Atoi "9223372036854775807" = (9223372036854775807, None) /\
  strconv.Atoi "9223372036854775808"
  = (9223372036854775807, Some strconv.ErrRange) /\
  strconv.Atoi "-9223372036854775808" = (-9223372036854775808, None).
Proof. repeat split; reflexivity. Qed.

(** C2, where the code departs from it: [isValidCEP] accepts the eight
    bytes ["-1234567"] and ["+1234567"], whose first byte is not a decimal
    digit, because [strconv.Atoi] reads a leading sign. *)
Theorem isValidCEP_accepts_signed :
  isValidCEP "-1234567" = true /\ allDigits "-1234567" = false /\
  isValidCEP "+1234567" = true /\ allDigits "+1234567" = false.
Proof. repeat split; reflexivity. Qed.


(** ** net/http *)

Ltac prog := unfold bind, ret, client_Do, run in *.

(** On a fresh writer, [http.Error] with one of the statuses the handlers
    use sends that status and the message followed by a newline. *)
Lemma Error_fresh (msg : string) (code : Z) :
  In code [400; 404; 422; 500] ->
  exists w, http.Error http.newResponse msg code = Some w /\
            http.status w = Some code /\
            http.body w = msg ++ String "010" EmptyString.
Proof.
  intros [<-|[<-|[<-|[<-|[]]]]]; eexists; (split; [reflexivity|split; reflexivity]).
Qed.

(** ** Service B: the geocoding client *)

Section GeocodingClient.
Context `{Library}.
Variable net : Transport.

Lemma fetchCity_create_failed cep l err :
  http.NewRequestWithContext "GET" ("https://viacep.com.br/ws/" ++ cep ++ "/json/") None
    = Err err ->
  ServiceB.fetchCityFromCEP net cep l = (Err err, l).
Proof. intro E. unfold ServiceB.fetchCityFromCEP. now rewrite E. Qed.

Lemma fetchCity_call_failed cep l get err sent :
  http.NewRequestWithContext "GET" ("https://viacep.com.br/ws/" ++ cep ++ "/json/") None
    = Ok get ->
  net get = (Err err, sent) ->
  ServiceB.fetchCityFromCEP net cep l = (Err err, (l ++ get :: sent)%list).
Proof.
  intros E N. unfold ServiceB.fetchCityFromCEP. rewrite E. prog. now rewrite N.
Qed.

(** The provider answers "bad request": the error is ["invalid zipcode"]. *)
Lemma fetchCity_bad_request cep l get resp sent :
  http.NewRequestWithContext "GET" ("https://viacep.com.br/ws/" ++ cep ++ "/json/") None
    = Ok get ->
  net get = (Ok resp, sent) ->
  StatusCode resp = 400 ->
  ServiceB.fetchCityFromCEP net cep l = (Err "invalid zipcode", (l ++ get :: sent)%list).
Proof.
  intros E N S. unfold ServiceB.fetchCityFromCEP. rewrite E. prog.
  rewrite N, S. reflexivity.
Qed.

(** The provider answers "not found": the error is ["can not find zipcode"]. *)
Lemma fetchCity_not_found cep l get resp sent :
  http.NewRequestWithContext "GET" ("https://viacep.com.br/ws/" ++ cep ++ "/json/") None
    = Ok get ->
  net get = (Ok resp, sent) ->
  StatusCode resp = 404 ->
  ServiceB.fetchCityFromCEP net cep l
  = (Err "can not find zipcode", (l ++ get :: sent)%list).
Proof.
  intros E N S. unfold ServiceB.fetchCityFromCEP. rewrite E. prog.
  rewrite N, S. reflexivity.
Qed.

(** The provider's answer decodes to an empty city: the error is
    ["city not found"]. *)
Lemma fetchCity_empty_city cep l get resp sent b v :
  http.NewRequestWithContext "GET" ("https://viacep.com.br/ws/" ++ cep ++ "/json/") None
    = Ok get ->
  net get = (Ok resp, sent) ->
  StatusCode resp <> 400 -> StatusCode resp <> 404 ->
  ReadAll (Body resp) = Ok b ->
  Unmarshal_ViaCEPResponse b = Ok v ->
  Localidade v = EmptyString ->
  ServiceB.fetchCityFromCEP net cep l = (Err "city not found", (l ++ get :: sent)%list).
Proof.
  intros E N S1 S2 R U L. unfold ServiceB.fetchCityFromCEP. rewrite E. prog.
  rewrite N. apply Z.eqb_neq in S1, S2.
  unfold http.StatusBadRequest, http.StatusNotFound. rewrite S1, S2, R, U, L.
  reflexivity.
Qed.

(** A city is returned only when it is not empty. *)
Lemma fetchCity_city_nonempty cep l city l' :
  ServiceB.fetchCityFromCEP net cep l = (Ok city, l') -> city <> EmptyString.
Proof.
  unfold ServiceB.fetchCityFromCEP.
  destruct (http.NewRequestWithContext _ _ _) as [get|e]; prog; [|discriminate].
  destruct (net get) as [[resp|e] sent]; [|discriminate].
  destruct (StatusCode resp =? _); [discriminate|].
  destruct (StatusCode resp =? _); [discriminate|].
  destruct (ReadAll _) as [b|e]; [|discriminate].
  destruct (Unmarshal_ViaCEPResponse b) as [v|e]; [|discriminate].
  destruct (Localidade v =? EmptyString)%string eqn:L; [discriminate|].
  intros [= <- _]. now apply String.eqb_neq in L.
Qed.

End GeocodingClient.

(** ** Service B: the weather client *)

Section WeatherClient.
Context `{Library}.
Variable net : Transport.

Lemma fetchTemperature_create_failed city l err :
  http.NewRequestWithContext "GET" (weatherURLFor city) None = Err err ->
  ServiceB.fetchTemperature net city l
  = (Err ("failed to create request: " ++ err), l).
Proof.
  intro E. unfold ServiceB.fetchTemperature. fold (weatherURLFor city).
  now rewrite E.
Qed.

Lemma fetchTemperature_call_failed city l get err sent :
  http.NewRequestWithContext "GET" (weatherURLFor city) None = Ok get ->
  net get = (Err err, sent) ->
  ServiceB.fetchTemperature net city l
  = (Err ("API request failed: " ++ err), (l ++ get :: sent)%list).
Proof.
  intros E N. unfold ServiceB.fetchTemperature. fold (weatherURLFor city).
  rewrite E. prog. now rewrite N.
Qed.

(** A status other than 200 is an error that carries the provider's body. *)
Lemma fetchTemperature_provider_error city l get resp sent :
  http.NewRequestWithContext "GET" (weatherURLFor city) None = Ok get ->
  net get = (Ok resp, sent) ->
  StatusCode resp <> 200 ->
  ServiceB.fetchTemperature net city l
  = (Err ("API error: " ++ data (Body resp)), (l ++ get :: sent)%list).
Proof.
  intros E N S. unfold ServiceB.fetchTemperature. fold (weatherURLFor city).
  rewrite E. prog. rewrite N. apply Z.eqb_neq in S.
  unfold http.StatusOK. now rewrite S.
Qed.

Lemma fetchTemperature_decode_failed city l get resp sent err :
  http.NewRequestWithContext "GET" (weatherURLFor city) None = Ok get ->
  net get = (Ok resp, sent) ->
  StatusCode resp = 200 ->
  Decode_WeatherAPIResponse (Body resp) = Err err ->
  ServiceB.fetchTemperature net city l
  = (Err ("failed to decode response: " ++ err), (l ++ get :: sent)%list).
Proof.
  intros E N S D. unfold ServiceB.fetchTemperature. fold (weatherURLFor city).
  rewrite E. prog. rewrite N, S, D. reflexivity.
Qed.

(** What [fetchTemperature] returns once the answer is decoded. *)
Lemma fetchTemperature_decoded city l get resp sent weatherResp :
  http.NewRequestWithContext "GET" (weatherURLFor city) None = Ok get ->
  net get = (Ok resp, sent) ->
  StatusCode resp = 200 ->
  Decode_WeatherAPIResponse (Body resp) = Ok weatherResp ->
  let tempC := WeatherAPIResponse.TempC (WeatherAPIResponse.Current weatherResp) in
  ServiceB.fetchTemperature net city l
  = (if (tempC =? 0)%float then Err "invalid temperature data" else Ok tempC,
     (l ++ get :: sent)%list).
Proof.
  intros E N S D tempC. unfold ServiceB.fetchTemperature.
  fold (weatherURLFor city). rewrite E. prog. rewrite N, S, D. simpl.
  fold tempC. now destruct (tempC =? 0)%float.
Qed.

(** C9: when the weather provider answers with status 200 and the answer
    decodes, [fetchTemperature] returns the error
    ["invalid temperature data"] if the decoded [temp_c] equals zero, and
    returns [temp_c] itself, unchanged, if it does not. *)
Theorem fetchTemperature_sentinel_zero city l get resp sent weatherResp :
  http.NewRequestWithContext "GET" (weatherURLFor city) None = Ok get ->
  net get = (Ok resp, sent) ->
  StatusCode resp = 200 ->
  Decode_WeatherAPIResponse (Body resp) = Ok weatherResp ->
  let tempC := WeatherAPIResponse.TempC (WeatherAPIResponse.Current weatherResp) in
  ((tempC =? 0)%float = true ->
   ServiceB.fetchTemperature net city l
   = (Err "invalid temperature data", (l ++ get :: sent)%list)) /\
  ((tempC =? 0)%float = false ->
   ServiceB.fetchTemperature net city l = (Ok tempC, (l ++ get :: sent)%list)).
Proof.
  intros E N S D tempC.
  rewrite (fetchTemperature_decoded city l get resp sent weatherResp E N S D).
  fold tempC. split; intros ->; reflexivity.
Qed.

(** A temperature is returned only when it does not equal zero. *)
Lemma fetchTemperature_nonzero city l tempC l' :
  ServiceB.fetchTemperature net city l = (Ok tempC, l') ->
  (tempC =? 0)%float = false.
Proof.
  unfold ServiceB.fetchTemperature.
  destruct (http.NewRequestWithContext _ _ _) as [get|e]; prog; [|discriminate].
  destruct (net get) as [[resp|e] sent]; [|discriminate].
  destruct (negb _); [discriminate|].
  destruct (Decode_WeatherAPIResponse _) as [wr|e]; [|discriminate].
  destruct (_ =? 0)%float eqn:Z0; [discriminate|].
  now intros [= <- _].
Qed.

Lemma Current_members_keep inner :
  hasMember "temp_c" inner = false ->
  forall c c', storeMembers Current_field inner c = Ok c' -> c' = c.
Proof.
  induction inner as [|[k v] inner IH]; simpl; intros Hm c c' Hs.
  - now injection Hs.
  - apply orb_false_elim in Hm as [Hk Hm].
    unfold Current_field in Hs at 1. rewrite Hk in Hs. now apply IH.
Qed.

Lemma Weather_members_keep members :
  lacksTempC (JObject members) = true ->
  forall s s', storeMembers WeatherAPIResponse_field members s = Ok s' ->
  WeatherAPIResponse.Current s' = WeatherAPIResponse.Current s.
Proof.
  induction members as [|[k v] members IH]; simpl; intros Hl s s' Hs.
  - now injection Hs as <-.
  - apply andb_prop in Hl as [Hv Hl].
    destruct (WeatherAPIResponse_field k v s) as [s1|e] eqn:F; [|discriminate].
    rewrite (IH Hl _ _ Hs). clear Hs IH Hl.
    unfold WeatherAPIResponse_field in F.
    destruct (isField "current" k); simpl in Hv.
    + destruct v as [| | | | |inner]; try discriminate; simpl in F.
      * now injection F as <-.
      * destruct (storeMembers Current_field inner _) as [c|e] eqn:C;
          [|discriminate].
        injection F as <-. simpl.
        apply (Current_members_keep inner); [|exact C].
        now apply negb_true_iff in Hv.
    + destruct (isField "location" k).
      * destruct (storeStruct _ _ _ _ _) as [x|e]; [|discriminate].
        now injection F as <-.
      * now injection F as <-.
Qed.

(** An answer that decodes and has no [current.temp_c] decodes to the zero
    value of [TempC]. *)
Lemma Decode_without_temp_c r v weatherResp :
  scanStream r = Ok v ->
  lacksTempC v = true ->
  Decode_WeatherAPIResponse r = Ok weatherResp ->
  WeatherAPIResponse.TempC (WeatherAPIResponse.Current weatherResp) = 0%float.
Proof.
  intros Sc L D. unfold Decode_WeatherAPIResponse in D. rewrite Sc in D.
  destruct v as [| | | | |members]; try discriminate; simpl in D.
  - now injection D as <-.
  - now rewrite (Weather_members_keep members L _ _ D).
Qed.

(** C10: when the weather provider answers with status 200 and a body that
    decodes but carries no [current.temp_c] at all, the decoded [TempC] is
    the zero value and [fetchTemperature] returns the sentinel error
    ["invalid temperature data"], not a decode error; the empty object
    [{}] is such a body and always decodes. *)
Theorem fetchTemperature_missing_temp_c city l get resp sent :
  http.NewRequestWithContext "GET" (weatherURLFor city) None = Ok get ->
  net get = (Ok resp, sent) ->
  StatusCode resp = 200 ->
  (forall v weatherResp,
      scanStream (Body resp) = Ok v ->
      lacksTempC v = true ->
      Decode_WeatherAPIResponse (Body resp) = Ok weatherResp ->
      WeatherAPIResponse.TempC (WeatherAPIResponse.Current weatherResp) = 0%float /\
      ServiceB.fetchTemperature net city l
      = (Err "invalid temperature data", (l ++ get :: sent)%list)) /\
  (scanStream (Body resp) = Ok (JObject []) ->
      Decode_WeatherAPIResponse (Body resp) = Ok WeatherAPIResponse.zero /\
      ServiceB.fetchTemperature net city l
      = (Err "invalid temperature data", (l ++ get :: sent)%list)).
Proof.
  intros E N S. split.
  - intros v wr Sc L D.
    pose proof (Decode_without_temp_c _ _ _ Sc L D) as Z0. split; [exact Z0|].
    rewrite (fetchTemperature_decoded city l get resp sent wr E N S D).
    simpl. now rewrite Z0.
  - intro Sc.
    assert (D : Decode_WeatherAPIResponse (Body resp) = Ok WeatherAPIResponse.zero).
    { unfold Decode_WeatherAPIResponse. now rewrite Sc. }
    split; [exact D|].
    now rewrite (fetchTemperature_decoded city l get resp sent _ E N S D).
Qed.

End WeatherClient.

(** ** Service B: the orchestrator *)

Section Orchestrator.
Context `{Library}.
Variable net : Transport.

(** The three ways [handleTemperature] answers a geocoding error, by the
    text of the error. *)
Lemma handleTemperature_geocoding_error r req l err l' :
  Decode_CEPRequest r = Ok req ->
  ServiceB.fetchCityFromCEP net (CEP req) l = (Err err, l') ->
  ServiceB.handleTemperature net http.newResponse r l
  = (if (err =? "invalid zipcode")%string then
       http.Error http.newResponse "invalid zipcode" 422
     else if (err =? "city not found")%string then
       http.Error http.newResponse "can not find zipcode" 404
     else http.Error http.newResponse "failed to fetch city" 500, l').
Proof.
  intros D F. unfold ServiceB.handleTemperature. rewrite D. prog. rewrite F.
  destruct (err =? "invalid zipcode")%string; [reflexivity|].
  now destruct (err =? "city not found")%string.
Qed.

(** C1, as the code has it: when the geocoding provider answers "bad
    request", [handleTemperature] responds 422; when its answer carries an
    empty city, 404; and for any geocoding error whose text is none of the
    three messages [fetchCityFromCEP] makes itself (a failure to create or
    send the request, to read or to decode the answer), 500. *)
Theorem handleTemperature_geocoding_status r req l :
  Decode_CEPRequest r = Ok req ->
  let url := "https://viacep.com.br/ws/" ++ CEP req ++ "/json/" in
  (forall get resp sent,
      http.NewRequestWithContext "GET" url None = Ok get ->
      net get = (Ok resp, sent) ->
      StatusCode resp = 400 ->
      exists w, fst (ServiceB.handleTemperature net http.newResponse r l) = Some w /\
                http.status w = Some 422 /\
                http.body w = "invalid zipcode" ++ newline) /\
  (forall get resp sent b v,
      http.NewRequestWithContext "GET" url None = Ok get ->
      net get = (Ok resp, sent) ->
      StatusCode resp <> 400 -> StatusCode resp <> 404 ->
      ReadAll (Body resp) = Ok b ->
      Unmarshal_ViaCEPResponse b = Ok v ->
      Localidade v = EmptyString ->
      exists w, fst (ServiceB.handleTemperature net http.newResponse r l) = Some w /\
                http.status w = Some 404 /\
                http.body w = "can not find zipcode" ++ newline) /\
  (forall err l',
      ServiceB.fetchCityFromCEP net (CEP req) l = (Err err, l') ->
      err <> "invalid zipcode" -> err <> "city not found" ->
      err <> "can not find zipcode" ->
      exists w, fst (ServiceB.handleTemperature net http.newResponse r l) = Some w /\
                http.status w = Some 500 /\
                http.body w = "failed to fetch city" ++ newline).
Proof.
  intros D url. repeat split.
  - intros get resp sent E N S.
    rewrite (handleTemperature_geocoding_error r req l _ _ D
               (fetchCity_bad_request net _ l get resp sent E N S)).
    eexists; repeat split.
  - intros get resp sent b v E N S1 S2 R U L.
    rewrite (handleTemperature_geocoding_error r req l _ _ D
               (fetchCity_empty_city net _ l get resp sent b v E N S1 S2 R U L)).
    eexists; repeat split.
  - intros err l' F E1 E2 _.
    rewrite (handleTemperature_geocoding_error r req l _ _ D F).
    apply String.eqb_neq in E1, E2. rewrite E1, E2.
    eexists; repeat split.
Qed.

(** The slip next to C1: when the provider answers "not found", the error
    is ["can not find zipcode"], which the switch of [handleTemperature]
    does not list: the response is 500. *)
Lemma handleTemperature_provider_not_found r req l get resp sent :
  Decode_CEPRequest r = Ok req ->
  http.NewRequestWithContext "GET" ("https://viacep.com.br/ws/" ++ CEP req ++ "/json/")
    None = Ok get ->
  net get = (Ok resp, sent) ->
  StatusCode resp = 404 ->
  exists w, fst (ServiceB.handleTemperature net http.newResponse r l) = Some w /\
            http.status w = Some 500 /\
            http.body w = "failed to fetch city" ++ newline.
Proof.
  intros D E N S.
  rewrite (handleTemperature_geocoding_error r req l _ _ D
             (fetchCity_not_found net _ l get resp sent E N S)).
  eexists; repeat split.
Qed.

(** C8: when the geocoding stage succeeds and the weather stage returns an
    error, whatever it is, [handleTemperature] responds 500 with the body
    ["failed to fetch temperature"]. *)
Theorem handleTemperature_weather_error r req l city l1 err l2 :
  Decode_CEPRequest r = Ok req ->
  ServiceB.fetchCityFromCEP net (CEP req) l = (Ok city, l1) ->
  ServiceB.fetchTemperature net city l1 = (Err err, l2) ->
  exists w, ServiceB.handleTemperature net http.newResponse r l = (Some w, l2) /\
            http.status w = Some 500 /\
            http.body w = "failed to fetch temperature" ++ newline.
Proof.
  intros D F T. unfold ServiceB.handleTemperature. rewrite D. prog.
  rewrite F, T. eexists; repeat split.
Qed.

(** C5: for every Celsius value [c] the weather stage produces for the city
    the geocoding stage found, the response [handleTemperature] encodes has
    that city, [c] as its Celsius field, [c * 1.8 + 32] as Fahrenheit and
    [c + 273] as Kelvin, in binary64 arithmetic; it is sent with status
    200. *)
Theorem handleTemperature_conversion r req l city l1 c l2 :
  Decode_CEPRequest r = Ok req ->
  ServiceB.fetchCityFromCEP net (CEP req) l = (Ok city, l1) ->
  ServiceB.fetchTemperature net city l1 = (Ok c, l2) ->
  exists response w,
    TemperatureResponse.City response = city /\
    TemperatureResponse.TempC response = c /\
    TemperatureResponse.TempF response = (c * 1.8 + 32)%float /\
    TemperatureResponse.TempK response = (c + 273)%float /\
    ServiceB.handleTemperature net http.newResponse r l = (Some w, l2) /\
    w = Encode_TemperatureResponse
          (http.setHeader (Header_Set "Content-Type" "application/json")
             http.newResponse) response /\
    http.finalStatus w = 200 /\
    forall b, Marshal_TemperatureResponse response = Ok b ->
              http.body w = b ++ newline.
Proof.
  intros D F T.
  exists {| TemperatureResponse.City := city;
            TemperatureResponse.TempC := c;
            TemperatureResponse.TempF := (c * 1.8 + 32)%float;
            TemperatureResponse.TempK := (c + 273)%float |}.
  eexists. repeat split.
  - unfold ServiceB.handleTemperature. rewrite D. prog. rewrite F, T.
    reflexivity.
  - unfold Encode_TemperatureResponse.
    now destruct (Marshal_TemperatureResponse _).
  - intros b M. unfold Encode_TemperatureResponse. rewrite M. reflexivity.
Qed.

(** Whatever happens, [handleTemperature] answers, with one of five
    statuses. *)
Lemma handleTemperature_statuses r l :
  exists w, fst (ServiceB.handleTemperature net http.newResponse r l) = Some w /\
            In (http.finalStatus w) [200; 400; 404; 422; 500].
Proof.
  unfold ServiceB.handleTemperature.
  destruct (Decode_CEPRequest r) as [req|e]; prog.
  - destruct (ServiceB.fetchCityFromCEP net (CEP req) l) as [[city|e] l1].
    + destruct (ServiceB.fetchTemperature net city l1) as [[c|e] l2].
      * eexists; split; [reflexivity|]. unfold Encode_TemperatureResponse.
        destruct (Marshal_TemperatureResponse _); simpl; auto.
      * eexists; split; [reflexivity|]; simpl; auto 10.
    + destruct (e =? "invalid zipcode")%string;
        [|destruct (e =? "city not found")%string];
        eexists; (split; [reflexivity|]); simpl; auto 10.
  - eexists; split; [reflexivity|]; simpl; auto 10.
Qed.

End Orchestrator.

(** ** Service A: the gateway *)

Section Gateway.
Context `{Library}.
Variable net : Transport.

Lemma handleCEP_undecodable r l err :
  Decode_CEPRequest r = Err err ->
  ServiceA.handleCEP net http.newResponse r l
  = (http.Error http.newResponse "invalid request body" 400, l).
Proof. intro D. unfold ServiceA.handleCEP. now rewrite D. Qed.

Lemma handleCEP_invalid r req l :
  Decode_CEPRequest r = Ok req ->
  isValidCEP (CEP req) = false ->
  ServiceA.handleCEP net http.newResponse r l
  = (http.Error http.newResponse "invalid zipcode" 422, l).
Proof. intros D V. unfold ServiceA.handleCEP. now rewrite D, V. Qed.

(** C6: when the postal code of the request fails [isValidCEP], [handleCEP]
    responds 422 with the body ["invalid zipcode"] and sends nothing: the
    log of outbound calls stays empty. *)
Theorem handleCEP_invalid_zipcode r req :
  Decode_CEPRequest r = Ok req ->
  isValidCEP (CEP req) = false ->
  exists w, run (ServiceA.handleCEP net http.newResponse r) = (Some w, []) /\
            http.status w = Some 422 /\
            http.body w = "invalid zipcode" ++ newline.
Proof.
  intros D V. unfold run. rewrite (handleCEP_invalid r req [] D V).
  eexists. split; [reflexivity|]. split; reflexivity.
Qed.

(** What [handleCEP] does with a valid request whose call to service B was
    answered and read. *)
Lemma handleCEP_answered r req l b post resp sent body :
  Decode_CEPRequest r = Ok req ->
  isValidCEP (CEP req) = true ->
  Marshal_CEPRequest req = Ok b ->
  http.NewRequestWithContext "POST" "http://service-b:8081/temperature" (Some b)
    = Ok post ->
  let httpReq :=
    setRequestHeader (Header_Set "Content-Type" "application/json")
      (setRequestHeader Inject post) in
  net httpReq = (Ok resp, sent) ->
  ReadAll (Body resp) = Ok body ->
  ServiceA.handleCEP net http.newResponse r l
  = (match http.WriteHeader (StatusCode resp)
             (http.setHeader (Header_Set "Content-Type" "application/json")
                http.newResponse) with
     | None => None
     | Some w2 => Some (http.Write body w2)
     end, (l ++ httpReq :: sent)%list).
Proof.
  intros D V M E httpReq N R. unfold ServiceA.handleCEP.
  rewrite D, V, M. simpl negb. cbv iota. rewrite E. prog.
  fold httpReq. rewrite N, R.
  now destruct (http.WriteHeader _ _).
Qed.

(** C7: when the request passes validation and the call to service B is
    answered and read, with one of the statuses 200, 400, 404, 422 and 500,
    [handleCEP] responds with that status and with the body it read. *)
Theorem handleCEP_relays r req l b post resp sent body :
  Decode_CEPRequest r = Ok req ->
  isValidCEP (CEP req) = true ->
  Marshal_CEPRequest req = Ok b ->
  http.NewRequestWithContext "POST" "http://service-b:8081/temperature" (Some b)
    = Ok post ->
  net (setRequestHeader (Header_Set "Content-Type" "application/json")
         (setRequestHeader Inject post)) = (Ok resp, sent) ->
  ReadAll (Body resp) = Ok body ->
  In (StatusCode resp) [200; 400; 404; 422; 500] ->
  exists w, fst (ServiceA.handleCEP net http.newResponse r l) = Some w /\
            http.status w = Some (StatusCode resp) /\
            http.body w = body.
Proof.
  intros D V M E N R S.
  rewrite (handleCEP_answered r req l b post resp sent body D V M E N R).
  destruct S as [<-|[<-|[<-|[<-|[<-|[]]]]]]; eexists; repeat split.
Qed.

(** The failures of the gateway's own call are all answered 500: a request
    that cannot be marshalled or created, a call that fails, an answer that
    cannot be read. *)
Lemma handleCEP_local_failure r req l :
  Decode_CEPRequest r = Ok req ->
  isValidCEP (CEP req) = true ->
  (exists e, Marshal_CEPRequest req = Err e) \/
  (exists b e,
      Marshal_CEPRequest req = Ok b /\
      http.NewRequestWithContext "POST" "http://service-b:8081/temperature" (Some b)
      = Err e) \/
  (exists b post,
      Marshal_CEPRequest req = Ok b /\
      http.NewRequestWithContext "POST" "http://service-b:8081/temperature" (Some b)
      = Ok post /\
      ((exists e sent,
           net (setRequestHeader (Header_Set "Content-Type" "application/json")
                  (setRequestHeader Inject post)) = (Err e, sent)) \/
       (exists resp sent e,
           net (setRequestHeader (Header_Set "Content-Type" "application/json")
                  (setRequestHeader Inject post)) = (Ok resp, sent) /\
           ReadAll (Body resp) = Err e))) ->
  exists w, fst (ServiceA.handleCEP net http.newResponse r l) = Some w /\
            http.status w = Some 500.
Proof.
  intros D V F. unfold ServiceA.handleCEP. rewrite D, V. simpl negb. cbv iota.
  destruct F as [[e M]|[(b & e & M & E)|(b & post & M & E & F)]].
  - rewrite M. eexists; split; reflexivity.
  - rewrite M, E. eexists; split; reflexivity.
  - rewrite M, E. prog.
    destruct F as [(e & sent & N)|(resp & sent & e & N & R)].
    + rewrite N. eexists; split; reflexivity.
    + rewrite N, R. eexists; split; reflexivity.
Qed.

End Gateway.

(** ** The log of outbound calls of service B *)

Section OrchestratorLog.
Context `{Library}.
Variable net : Transport.

Lemma fetchCity_log cep l get :
  http.NewRequestWithContext "GET" ("https://viacep.com.br/ws/" ++ cep ++ "/json/") None
    = Ok get ->
  exists sent, snd (ServiceB.fetchCityFromCEP net cep l) = (l ++ get :: sent)%list.
Proof.
  intro E. unfold ServiceB.fetchCityFromCEP. rewrite E. prog.
  destruct (net get) as [[resp|e] sent]; exists sent; [|reflexivity].
  destruct (StatusCode resp =? _); [reflexivity|].
  destruct (StatusCode resp =? _); [reflexivity|].
  destruct (ReadAll _) as [b|e]; [|reflexivity].
  destruct (Unmarshal_ViaCEPResponse b) as [v|e]; [|reflexivity].
  now destruct (Localidade v =? EmptyString)%string.
Qed.

Lemma fetchTemperature_log city l :
  exists more, snd (ServiceB.fetchTemperature net city l) = (l ++ more)%list.
Proof.
  unfold ServiceB.fetchTemperature.
  destruct (http.NewRequestWithContext _ _ _) as [get|e]; prog;
    [|exists []; simpl; now rewrite app_nil_r].
  destruct (net get) as [[resp|e] sent]; exists (get :: sent); [|reflexivity].
  destruct (negb _); [reflexivity|].
  destruct (Decode_WeatherAPIResponse _) as [wr|e]; [|reflexivity].
  now destruct (_ =? 0)%float.
Qed.

(** Once the request is decoded and the geocoding request created, that
    request is sent, whatever happens next. *)
Lemma handleTemperature_calls_geocoding w r req l get :
  Decode_CEPRequest r = Ok req ->
  http.NewRequestWithContext "GET"
    ("https://viacep.com.br/ws/" ++ CEP req ++ "/json/") None = Ok get ->
  In get (snd (ServiceB.handleTemperature net w r l)).
Proof.
  intros D E. unfold ServiceB.handleTemperature. rewrite D. prog.
  destruct (fetchCity_log (CEP req) l get E) as [sent L].
  destruct (ServiceB.fetchCityFromCEP net (CEP req) l) as [[city|e] l1];
    simpl in L; subst l1.
  - destruct (fetchTemperature_log city (l ++ get :: sent)%list) as [more L].
    destruct (ServiceB.fetchTemperature net city _) as [[c|e] l2];
      simpl in L; subst l2; simpl; rewrite !in_app_iff; simpl; auto.
  - destruct (e =? "invalid zipcode")%string;
      [|destruct (e =? "city not found")%string];
      simpl; rewrite in_app_iff; simpl; auto.
Qed.

End OrchestratorLog.

(** ** The two services together *)

Section EndToEnd.
Context `{Library}.
Variable providers : Transport.
Variable link : Request -> option error.

Lemma NewRequest_body method url b req :
  http.NewRequestWithContext method url b = Ok req -> ReqBody req = b.
Proof.
  unfold http.NewRequestWithContext.
  destruct (newRequestErr method url); [discriminate|]. now intros [= <-].
Qed.

(** A status of service B, relayed on a fresh writer. *)
Lemma relay_fresh code body :
  In code [200; 400; 404; 422; 500] ->
  exists w,
    match http.WriteHeader code
            (http.setHeader (Header_Set "Content-Type" "application/json")
               http.newResponse) with
    | None => None
    | Some w2 => Some (http.Write body w2)
    end = Some w /\
    http.status w = Some code /\ http.body w = body.
Proof.
  intros [<-|[<-|[<-|[<-|[<-|[]]]]]]; eexists; repeat split.
Qed.

(** The answer of service B to a request the network delivers. *)
Lemma serviceB_delivered post b reply sent :
  ReqBody post = Some b ->
  link post = None ->
  run (ServiceB.handleTemperature providers http.newResponse (bytesReader b))
    = (reply, sent) ->
  Pipeline.serviceB providers link post = (Pipeline.deliver reply, sent).
Proof.
  intros B L R. unfold Pipeline.serviceB, Pipeline.requestBody.
  rewrite L, B, R. reflexivity.
Qed.

(** What the caller of [POST /cep] receives when the request reaches
    service B: the status and the body of service B's reply. *)
Lemma pipeline_relays r req b post reply sent :
  Decode_CEPRequest r = Ok req ->
  isValidCEP (CEP req) = true ->
  Marshal_CEPRequest req = Ok b ->
  http.NewRequestWithContext "POST" "http://service-b:8081/temperature" (Some b)
    = Ok post ->
  let httpReq :=
    setRequestHeader (Header_Set "Content-Type" "application/json")
      (setRequestHeader Inject post) in
  link httpReq = None ->
  run (ServiceB.handleTemperature providers http.newResponse (bytesReader b))
    = (Some reply, sent) ->
  exists w, run (Pipeline.handle providers link r) = (Some w, httpReq :: sent) /\
            http.status w = Some (http.finalStatus reply) /\
            http.body w = http.body reply.
Proof.
  intros D V M E httpReq L R.
  assert (B : ReqBody httpReq = Some b) by (simpl; now apply NewRequest_body in E).
  pose proof (serviceB_delivered httpReq b (Some reply) sent B L R) as N.
  unfold Pipeline.handle, run.
  rewrite (handleCEP_answered (Pipeline.serviceB providers link) r req [] b post
             _ sent (http.body reply) D V M E N eq_refl).
  simpl StatusCode.
  destruct (handleTemperature_statuses providers (bytesReader b) []) as (w0 & F & S).
  unfold run in R. rewrite R in F. simpl in F. injection F as <-.
  destruct (relay_fresh (http.finalStatus reply) (http.body reply) S)
    as (w & Hw & Hs & Hb).
  exists w. rewrite Hw. repeat split; assumption.
Qed.

(** C3, where the code departs from it: a postal code that [isValidCEP]
    accepts although it is not made of digits only (such as ["-1234567"])
    is forwarded by the gateway and reaches the geocoding client: the
    request [fetchCityFromCEP] builds for it is among the calls sent. *)
Theorem accepted_non_digit_cep_reaches_geocoding r req b post get :
  Decode_CEPRequest r = Ok req ->
  isValidCEP (CEP req) = true ->
  allDigits (CEP req) = false ->
  Marshal_CEPRequest req = Ok b ->
  http.NewRequestWithContext "POST" "http://service-b:8081/temperature" (Some b)
    = Ok post ->
  link (setRequestHeader (Header_Set "Content-Type" "application/json")
          (setRequestHeader Inject post)) = None ->
  Decode_CEPRequest (bytesReader b) = Ok req ->
  http.NewRequestWithContext "GET"
    ("https://viacep.com.br/ws/" ++ CEP req ++ "/json/") None = Ok get ->
  In get (snd (run (Pipeline.handle providers link r))).
Proof.
  intros D V _ M E L D' G.
  destruct (run (ServiceB.handleTemperature providers http.newResponse
                   (bytesReader b))) as [reply sent] eqn:R.
  pose proof (handleTemperature_calls_geocoding providers http.newResponse
                (bytesReader b) req [] get D' G) as I.
  unfold run in R. rewrite R in I. simpl in I.
  destruct (handleTemperature_statuses providers (bytesReader b) []) as (w0 & F & _).
  rewrite R in F. simpl in F. subst reply.
  destruct (pipeline_relays r req b post w0 sent D V M E L R) as (w & P & _).
  rewrite P. simpl. now right.
Qed.

End EndToEnd.

(** ** The inbound interface *)

Section InboundInterface.
Context `{Library}.
Variable providers : Transport.
Variable link : Request -> option error.

Lemma pipeline_local_failure r req :
  Decode_CEPRequest r = Ok req ->
  isValidCEP (CEP req) = true ->
  (exists e, Marshal_CEPRequest req = Err e) \/
  (exists b e,
      Marshal_CEPRequest req = Ok b /\
      http.NewRequestWithContext "POST" "http://service-b:8081/temperature" (Some b)
      = Err e) \/
  (exists b post e,
      Marshal_CEPRequest req = Ok b /\
      http.NewRequestWithContext "POST" "http://service-b:8081/temperature" (Some b)
      = Ok post /\
      link (setRequestHeader (Header_Set "Content-Type" "application/json")
              (setRequestHeader Inject post)) = Some e) ->
  exists w, fst (run (Pipeline.handle providers link r)) = Some w /\
            http.status w = Some 500.
Proof.
  intros D V F. unfold Pipeline.handle, run.
  apply (handleCEP_local_failure _ r req [] D V).
  destruct F as [F|[F|(b & post & e & M & E & L)]]; [now left|now right; left|].
  right; right. exists b, post. repeat split; try assumption.
  left. exists e, []. unfold Pipeline.serviceB. now rewrite L.
Qed.

Lemma pipeline_undecodable r err :
  Decode_CEPRequest r = Err err ->
  exists w, run (Pipeline.handle providers link r) = (Some w, []) /\
            http.status w = Some 400 /\
            http.body w = "invalid request body" ++ newline.
Proof.
  intro D. unfold Pipeline.handle, run.
  rewrite (handleCEP_undecodable _ r [] err D). eexists; repeat split.
Qed.

Lemma pipeline_invalid r req :
  Decode_CEPRequest r = Ok req ->
  isValidCEP (CEP req) = false ->
  exists w, run (Pipeline.handle providers link r) = (Some w, []) /\
            http.status w = Some 422 /\
            http.body w = "invalid zipcode" ++ newline.
Proof.
  intros D V. unfold Pipeline.handle, run.
  rewrite (handleCEP_invalid _ r req [] D V).
  eexists. split; [reflexivity|]. split; reflexivity.
Qed.

Lemma finalStatus_of_status w c :
  http.status w = Some c -> http.finalStatus w = c.
Proof. intro S. unfold http.finalStatus. now rewrite S. Qed.

(** Every request to [POST /cep] is answered, with one of five statuses. *)
Lemma pipeline_statuses r :
  exists w, fst (run (Pipeline.handle providers link r)) = Some w /\
            In (http.finalStatus w) [200; 400; 404; 422; 500].
Proof.
  destruct (Decode_CEPRequest r) as [req|err] eqn:D.
  2:{ destruct (pipeline_undecodable r err D) as (w & R & S & _). exists w.
      rewrite R, (finalStatus_of_status w _ S). simpl; auto. }
  destruct (isValidCEP (CEP req)) eqn:V.
  2:{ destruct (pipeline_invalid r req D V) as (w & R & S & _). exists w.
      rewrite R, (finalStatus_of_status w _ S). simpl; auto 10. }
  assert (Loc : forall w, http.status w = Some 500 ->
                          In (http.finalStatus w) [200; 400; 404; 422; 500]).
  { intros w S. rewrite (finalStatus_of_status w _ S). simpl; auto 10. }
  destruct (Marshal_CEPRequest req) as [b|e] eqn:M.
  2:{ destruct (pipeline_local_failure r req D V) as (w & R & S);
        [left; now exists e|]. exists w. split; [exact R|now apply Loc]. }
  destruct (http.NewRequestWithContext "POST" "http://service-b:8081/temperature"
              (Some b)) as [post|e] eqn:E.
  2:{ destruct (pipeline_local_failure r req D V) as (w & R & S);
        [right; left; exists b, e; now split|].
      exists w. split; [exact R|now apply Loc]. }
  destruct (link (setRequestHeader (Header_Set "Content-Type" "application/json")
                    (setRequestHeader Inject post))) as [e|] eqn:L.
  { destruct (pipeline_local_failure r req D V) as (w & R & S);
      [right; right; exists b, post, e; now repeat split|].
    exists w. split; [exact R|now apply Loc]. }
  destruct (handleTemperature_statuses providers (bytesReader b) [])
    as (reply & F & S).
  destruct (ServiceB.handleTemperature providers http.newResponse
              (bytesReader b) []) as [ow sent] eqn:R.
  simpl in F. subst ow.
  destruct (pipeline_relays providers link r req b post reply sent D V M E L R)
    as (w & P & Sw & _).
  exists w. rewrite P. split; [reflexivity|].
  now rewrite (finalStatus_of_status w _ Sw).
Qed.

(** The part of C3 that holds: the gateway sends nothing before the
    request is decoded and its postal code accepted by [isValidCEP]. *)
Lemma outbound_calls_only_after_validation r :
  snd (run (Pipeline.handle providers link r)) <> [] ->
  exists req, Decode_CEPRequest r = Ok req /\ isValidCEP (CEP req) = true.
Proof.
  intro Sent.
  destruct (Decode_CEPRequest r) as [req|err] eqn:D.
  - exists req. split; [reflexivity|].
    destruct (isValidCEP (CEP req)) eqn:V; [reflexivity|].
    destruct (pipeline_invalid r req D V) as (w & R & _).
    rewrite R in Sent. now elim Sent.
  - destruct (pipeline_undecodable r err D) as (w & R & _).
    rewrite R in Sent. now elim Sent.
Qed.

(** C4, as the code has it: at [POST /cep] every request is answered, with
    one of the statuses 200, 400, 404, 422 and 500.  A body that cannot be
    decoded yields 400 with the body ["invalid request body"] (not 500); a
    postal code that fails validation yields 422 with the body
    ["invalid zipcode"]; a request the gateway cannot marshal, create or
    get through to service B yields 500; and in every other case the
    status and the body are those of service B's reply. *)
Theorem inbound_statuses r :
  (exists w, fst (run (Pipeline.handle providers link r)) = Some w /\
             In (http.finalStatus w) [200; 400; 404; 422; 500]) /\
  (forall err,
      Decode_CEPRequest r = Err err ->
      exists w, run (Pipeline.handle providers link r) = (Some w, []) /\
                http.status w = Some 400 /\
                http.body w = "invalid request body" ++ newline) /\
  (forall req,
      Decode_CEPRequest r = Ok req ->
      isValidCEP (CEP req) = false ->
      exists w, run (Pipeline.handle providers link r) = (Some w, []) /\
                http.status w = Some 422 /\
                http.body w = "invalid zipcode" ++ newline) /\
  (forall req,
      Decode_CEPRequest r = Ok req ->
      isValidCEP (CEP req) = true ->
      (exists e, Marshal_CEPRequest req = Err e) \/
      (exists b e,
          Marshal_CEPRequest req = Ok b /\
          http.NewRequestWithContext "POST" "http://service-b:8081/temperature"
            (Some b) = Err e) \/
      (exists b post e,
          Marshal_CEPRequest req = Ok b /\
          http.NewRequestWithContext "POST" "http://service-b:8081/temperature"
            (Some b) = Ok post /\
          link (setRequestHeader (Header_Set "Content-Type" "application/json")
                  (setRequestHeader Inject post)) = Some e) ->
      exists w, fst (run (Pipeline.handle providers link r)) = Some w /\
                http.status w = Some 500) /\
  (forall req b post reply sent,
      Decode_CEPRequest r = Ok req ->
      isValidCEP (CEP req) = true ->
      Marshal_CEPRequest req = Ok b ->
      http.NewRequestWithContext "POST" "http://service-b:8081/temperature" (Some b)
        = Ok post ->
      link (setRequestHeader (Header_Set "Content-Type" "application/json")
              (setRequestHeader Inject post)) = None ->
      run (ServiceB.handleTemperature providers http.newResponse (bytesReader b))
        = (Some reply, sent) ->
      exists w, fst (run (Pipeline.handle providers link r)) = Some w /\
                http.status w = Some (http.finalStatus reply) /\
                http.body w = http.body reply).
Proof.
  split; [apply pipeline_statuses|].
  split; [apply pipeline_undecodable|].
  split; [apply pipeline_invalid|].
  split.
  - intros req D V F. now apply (pipeline_local_failure r req D V).
  - intros req b post reply sent D V M E L R.
    destruct (pipeline_relays providers link r req b post reply sent D V M E L R)
      as (w & P & Sw & Bw).
    exists w. rewrite P. repeat split; assumption.
Qed.

End InboundInterface.

(** ** The claims on the concrete world *)

Section Concrete.
Import Demo.
#[local] Existing Instance Demo.library.

(** C1 as the spec states it fails: ViaCEP has no record for 00000000 and
    answers with an object without city; [fetchCityFromCEP] returns
    ["city not found"] and [handleTemperature] responds 404, where the spec
    says 422. *)
Lemma empty_city_is_404_not_422 :
  fst (run (ServiceB.fetchCityFromCEP (providers sunny) "00000000"))
  = Err "city not found" /\
  exists w,
    fst (run (ServiceB.handleTemperature (providers sunny) http.newResponse
                (ask "00000000"))) = Some w /\
    http.status w = Some 404 /\ http.status w <> Some 422.
Proof.
  split; [reflexivity|]. eexists. split; [reflexivity|].
  split; [reflexivity|discriminate].
Qed.

Lemma handleTemperature_geocoding_status_witness :
  (exists w,
      fst (run (ServiceB.handleTemperature (providers sunny) http.newResponse
                  (ask "123"))) = Some w /\
      http.status w = Some 422 /\ http.body w = "invalid zipcode" ++ newline) /\
  (exists w,
      fst (run (ServiceB.handleTemperature (providers sunny) http.newResponse
                  (ask "00000000"))) = Some w /\
      http.status w = Some 404 /\ http.body w = "can not find zipcode" ++ newline) /\
  (exists w,
      fst (run (ServiceB.handleTemperature offline http.newResponse
                  (ask "01001000"))) = Some w /\
      http.status w = Some 500 /\ http.body w = "failed to fetch city" ++ newline).
Proof.
  split; [|split].
  - apply (proj1 (handleTemperature_geocoding_status (H := library) (providers sunny)
                    (ask "123") {| CEP := "123" |} [] eq_refl)
             (viacepGet "123") {| StatusCode := 400; Body := bytesReader EmptyString |} []);
      reflexivity.
  - apply (proj1 (proj2 (handleTemperature_geocoding_status (H := library) (providers sunny)
                           (ask "00000000") {| CEP := "00000000" |} [] eq_refl))
             (viacepGet "00000000")
             {| StatusCode := 200; Body := bytesReader erroBody |} []
             erroBody {| Localidade := EmptyString |});
      try reflexivity; discriminate.
  - apply (proj2 (proj2 (handleTemperature_geocoding_status (H := library) offline
                           (ask "01001000") {| CEP := "01001000" |} [] eq_refl))
             "dial tcp: lookup viacep.com.br: no such host" [viacepGet "01001000"]);
      try reflexivity; discriminate.
Defined.

Lemma accepted_non_digit_cep_reaches_geocoding_witness :
  isValidCEP "-1234567" = true /\ allDigits "-1234567" = false /\
  In (viacepGet "-1234567")
     (snd (run (Pipeline.handle (providers sunny) reliable (ask "-1234567")))).
Proof.
  split; [reflexivity|]. split; [reflexivity|].
  apply (accepted_non_digit_cep_reaches_geocoding (H := library) (providers sunny) reliable
           (ask "-1234567") {| CEP := "-1234567" |} (obj1 "cep" "-1234567")
           (post "-1234567") (viacepGet "-1234567"));
    reflexivity.
Defined.

(** C4 as the spec states it fails: a body that is not JSON is answered 400
    with the body ["invalid request body"], where the spec says 500. *)
Lemma undecodable_body_is_400_not_500 :
  Decode_CEPRequest (bytesReader "cep=01001000")
  = Err "invalid character 'c' looking for beginning of value" /\
  exists w,
    fst (run (Pipeline.handle (providers sunny) reliable
                (bytesReader "cep=01001000"))) = Some w /\
    http.finalStatus w = 400 /\ http.finalStatus w <> 500 /\
    http.body w = "invalid request body" ++ newline.
Proof.
  split; [reflexivity|]. eexists. split; [reflexivity|].
  split; [reflexivity|]. split; [discriminate|reflexivity].
Qed.

Lemma inbound_statuses_witness :
  (exists w,
      fst (run (Pipeline.handle (providers sunny) reliable (ask "01001000")))
      = Some w /\
      In (http.finalStatus w) [200; 400; 404; 422; 500]) /\
  (exists w,
      run (Pipeline.handle (providers sunny) reliable (bytesReader "cep=01001000"))
      = (Some w, []) /\
      http.status w = Some 400 /\
      http.body w = "invalid request body" ++ newline) /\
  (exists w,
      run (Pipeline.handle (providers sunny) reliable (ask "123")) = (Some w, []) /\
      http.status w = Some 422 /\
      http.body w = "invalid zipcode" ++ newline) /\
  (exists w,
      fst (run (Pipeline.handle (providers sunny) down (ask "01001000"))) = Some w /\
      http.status w = Some 500) /\
  (exists w,
      fst (run (Pipeline.handle (providers sunny) reliable (ask "00000000")))
      = Some w /\
      http.status w = Some 404 /\
      http.body w = "can not find zipcode" ++ newline).
Proof.
  split; [|split; [|split; [|split]]].
  - exact (proj1 (inbound_statuses (H := library) (providers sunny) reliable
                    (ask "01001000"))).
  - apply (proj1 (proj2 (inbound_statuses (H := library) (providers sunny) reliable
                           (bytesReader "cep=01001000")))
             "invalid character 'c' looking for beginning of value").
    reflexivity.
  - apply (proj1 (proj2 (proj2 (inbound_statuses (H := library) (providers sunny)
                                  reliable (ask "123"))))
             {| CEP := "123" |}); reflexivity.
  - apply (proj1 (proj2 (proj2 (proj2 (inbound_statuses (H := library)
                                         (providers sunny) down (ask "01001000")))))
             {| CEP := "01001000" |}); try reflexivity.
    right; right.
    exists (obj1 "cep" "01001000"), (post "01001000"),
      "dial tcp: connect: connection refused".
    repeat split.
  - destruct (proj2 (proj2 (proj2 (proj2 (inbound_statuses (H := library)
                (providers sunny) reliable (ask "00000000")))))
                {| CEP := "00000000" |} (obj1 "cep" "00000000") (post "00000000")
                {| http.header :=
                     [("X-Content-Type-Options", "nosniff");
                      ("Content-Type", "text/plain; charset=utf-8")];
                   http.status := Some 404; http.interim := [];
                   http.body := "can not find zipcode" ++ newline |}
                [viacepGet "00000000"]
                eq_refl eq_refl eq_refl eq_refl eq_refl eq_refl)
      as (w & R & S & B).
    exists w. repeat split; assumption.
Defined.

Lemma handleTemperature_conversion_witness :
  exists response w,
    TemperatureResponse.City response = "Curitiba" /\
    TemperatureResponse.TempC response = 22.5%float /\
    TemperatureResponse.TempF response = 72.5%float /\
    TemperatureResponse.TempK response = 295.5%float /\
    ServiceB.handleTemperature (providers sunny) http.newResponse (ask "01001000") []
    = (Some w, [viacepGet "01001000"; weatherGet]) /\
    http.finalStatus w = 200.
Proof.
  destruct (handleTemperature_conversion (H := library) (providers sunny)
              (ask "01001000") {| CEP := "01001000" |} [] "Curitiba"
              [viacepGet "01001000"] 22.5%float [viacepGet "01001000"; weatherGet]
              eq_refl eq_refl eq_refl)
    as (response & w & C & T & F & K & R & _ & S & _).
  exists response, w. repeat split; assumption.
Defined.

Lemma handleCEP_invalid_zipcode_witness :
  isValidCEP "123" = false /\
  exists w,
    run (ServiceA.handleCEP (Pipeline.serviceB (providers sunny) reliable)
           http.newResponse (ask "123")) = (Some w, []) /\
    http.status w = Some 422 /\ http.body w = "invalid zipcode" ++ newline.
Proof.
  split; [reflexivity|].
  apply (handleCEP_invalid_zipcode (H := library)
           (Pipeline.serviceB (providers sunny) reliable) (ask "123")
           {| CEP := "123" |}); reflexivity.
Defined.

Lemma handleCEP_relays_witness :
  exists w,
    fst (ServiceA.handleCEP (Pipeline.serviceB (providers sunny) reliable)
           http.newResponse (ask "00000000") []) = Some w /\
    http.status w = Some 404 /\
    http.body w = "can not find zipcode" ++ newline.
Proof.
  apply (handleCEP_relays (H := library)
           (Pipeline.serviceB (providers sunny) reliable) (ask "00000000")
           {| CEP := "00000000" |} [] (obj1 "cep" "00000000") (post "00000000")
           {| StatusCode := 404;
              Body := bytesReader ("can not find zipcode" ++ newline) |}
           [viacepGet "00000000"] ("can not find zipcode" ++ newline));
    try reflexivity.
  simpl. auto.
Defined.

Lemma handleTemperature_weather_error_witness :
  exists w,
    ServiceB.handleTemperature (providers stormy) http.newResponse (ask "01001000") []
    = (Some w, [viacepGet "01001000"; weatherGet]) /\
    http.status w = Some 500 /\
    http.body w = "failed to fetch temperature" ++ newline.
Proof.
  apply (handleTemperature_weather_error (H := library) (providers stormy)
           (ask "01001000") {| CEP := "01001000" |} [] "Curitiba"
           [viacepGet "01001000"] "API error: upstream unavailable"
           [viacepGet "01001000"; weatherGet]); reflexivity.
Defined.

Lemma fetchTemperature_sentinel_zero_witness :
  run (ServiceB.fetchTemperature (providers sunny) "Curitiba")
  = (Ok 22.5%float, [weatherGet]) /\
  run (ServiceB.fetchTemperature (providers (answer 200 freezingBody)) "Curitiba")
  = (Err "invalid temperature data", [weatherGet]).
Proof.
  split.
  - exact (proj2 (fetchTemperature_sentinel_zero (H := library) (providers sunny)
                    "Curitiba" [] weatherGet
                    {| StatusCode := 200; Body := bytesReader weatherBody |} []
                    {| WeatherAPIResponse.Current :=
                         {| WeatherAPIResponse.TempC := 22.5 |};
                       WeatherAPIResponse.Location :=
                         {| WeatherAPIResponse.Name := EmptyString |} |}
                    eq_refl eq_refl eq_refl eq_refl) eq_refl).
  - exact (proj1 (fetchTemperature_sentinel_zero (H := library)
                    (providers (answer 200 freezingBody)) "Curitiba" [] weatherGet
                    {| StatusCode := 200; Body := bytesReader freezingBody |} []
                    WeatherAPIResponse.zero eq_refl eq_refl eq_refl eq_refl)
             eq_refl).
Defined.

Lemma fetchTemperature_missing_temp_c_witness :
  Decode_WeatherAPIResponse (bytesReader "{}") = Ok WeatherAPIResponse.zero /\
  run (ServiceB.fetchTemperature (providers (answer 200 "{}")) "Curitiba")
  = (Err "invalid temperature data", [weatherGet]).
Proof.
  pose proof (fetchTemperature_missing_temp_c (H := library)
                (providers (answer 200 "{}")) "Curitiba" [] weatherGet
                {| StatusCode := 200; Body := bytesReader "{}" |} []
                eq_refl eq_refl eq_refl) as [General Empty].
  split.
  - exact (proj1 (Empty eq_refl)).
  - exact (proj2 (General (JObject []) WeatherAPIResponse.zero
                    eq_refl eq_refl eq_refl)).
Defined.

(** The two formulas on sample readings: the scenario of the spec, a
    negative reading and zero. *)
Example conversion_examples :
  (22.5 * 1.8 + 32 = 72.5 /\ 22.5 + 273 = 295.5 /\
   -40 * 1.8 + 32 = -40 /\ -40 + 273 = 233 /\
   0 * 1.8 + 32 = 32 /\ 0 + 273 = 273)%float.
Proof. repeat split; reflexivity. Qed.

(** The scenario of the spec, end to end: 01001000 resolves to a city where
    it is 22.5 degrees Celsius. *)
Example scenario_success :
  exists w,
    run (Pipeline.handle (providers sunny) reliable (ask "01001000"))
    = (Some w, [posted "01001000"; viacepGet "01001000"; weatherGet]) /\
    http.status w = Some 200 /\
    http.body w
    = "{" ++ q ++ "city" ++ q ++ ":" ++ q ++ "Curitiba" ++ q ++ "," ++ q
      ++ "temp_C" ++ q ++ ":22.5," ++ q ++ "temp_F" ++ q ++ ":72.5," ++ q
      ++ "temp_K" ++ q ++ ":295.5}" ++ newline.
Proof. eexists. split; [vm_compute; reflexivity|]. split; reflexivity. Qed.

(** The slip next to C1 on the concrete world: ViaCEP answers 404 for
    99999999 and the caller receives 500. *)
Example scenario_provider_not_found :
  exists w,
    fst (run (Pipeline.handle (providers sunny) reliable (ask "99999999")))
    = Some w /\
    http.status w = Some 500 /\ http.body w = "failed to fetch city" ++ newline.
Proof. eexists. split; [vm_compute; reflexivity|]. split; reflexivity. Qed.

End Concrete.


(** * Further properties of the code *)

(** ** The postal validator, exactly *)

(** [isValidCEP] accepts a string exactly when it has eight bytes that are
    eight decimal digits, or a sign followed by seven decimal digits. *)
Theorem isValidCEP_iff (cep : string) :
  isValidCEP cep = true <->
  len cep = 8 /\
  (allDigits cep = true \/
   exists c rest, cep = String c rest /\ (c = "-"%char \/ c = "+"%char) /\
                  allDigits rest = true).
Proof.
  rewrite isValidCEP_spec. rewrite andb_true_iff, Z.eqb_eq.
  split; intros [L H]; (split; [exact L|]).
  - destruct cep as [|c rest]; [discriminate|].
    destruct (strconv.isSign c) eqn:S; [|now left].
    right. exists c, rest. repeat split; [|exact H].
    unfold strconv.isSign in S. apply orb_prop in S as [S|S];
      apply Ascii.eqb_eq in S; auto.
  - destruct cep as [|c rest]; [discriminate|].
    destruct H as [D|(c' & rest' & [= -> ->] & S & D)].
    + destruct (strconv.isSign c) eqn:S; [|exact D].
      simpl in D. apply andb_prop in D as [D0 _].
      unfold strconv.isSign in S. apply orb_prop in S as [S|S];
        apply Ascii.eqb_eq in S; subst c; discriminate.
    + now destruct S as [-> | ->].
Qed.

Lemma isValidCEP_accepts_digits_witness :
  len "01001000" = 8 /\ allDigits "01001000" = true /\
  isValidCEP "01001000" = true.
Proof.
  split; [reflexivity|]. split; [reflexivity|].
  apply isValidCEP_accepts_digits; reflexivity.
Defined.

(** ** Decoding the structs *)

Section Decoding.
Context `{Library}.

Lemma storeMembers_app {S : Type} (field : string -> json -> S -> result S) l1 l2 s :
  storeMembers field (l1 ++ l2)%list s
  = match storeMembers field l1 s with
    | Ok s1 => storeMembers field l2 s1
    | Err e => Err e
    end.
Proof.
  revert s. induction l1 as [|[k v] l1 IH]; intro s; simpl; [reflexivity|].
  destruct (field k v s); [apply IH|reflexivity].
Qed.

(** Members that are stored into no field leave the struct as it is. *)
Lemma storeMembers_skipped {S : Type} (field : string -> json -> S -> result S) name :
  (forall k v s, isField name k = false -> field k v s = Ok s) ->
  forall members s, hasMember name members = false ->
                    storeMembers field members s = Ok s.
Proof.
  intros Skip. induction members as [|[k v] members IH]; intros s Hm; simpl;
    [reflexivity|].
  simpl in Hm. apply orb_false_elim in Hm as [Hk Hm].
  rewrite (Skip k v s Hk). now apply IH.
Qed.

(** In a struct whose only field is the string field [name], the last
    member stored into it wins. *)
Lemma storeMembers_last {S : Type} (field : string -> json -> S -> result S) name
    (make : string -> S) :
  (forall k v s, isField name k = false -> field k v s = Ok s) ->
  (forall k s, isField name k = true -> field k JNull s = Ok s) ->
  (forall k x s, isField name k = true -> field k (JString x) s = Ok (make x)) ->
  forall before k x after s,
    isField name k = true ->
    stringsAt name before = true ->
    hasMember name after = false ->
    storeMembers field (before ++ (k, JString x) :: after)%list s = Ok (make x).
Proof.
  intros Skip Null Str before k x after s K. revert s.
  induction before as [|[k0 v0] before IH]; intros s B A; simpl.
  - rewrite (Str k x s K). now apply (storeMembers_skipped field name Skip).
  - simpl in B. apply andb_prop in B as [B0 B].
    destruct (isField name k0) eqn:K0; simpl in B0.
    + destruct v0; try discriminate.
      * rewrite (Null k0 s K0). now apply IH.
      * rewrite (Str k0 _ s K0). now apply IH.
    + rewrite (Skip k0 v0 s K0). now apply IH.
Qed.

(** A member stored into the field that does not fit makes the whole
    decoding fail. *)
Lemma storeMembers_mistyped {S : Type} (field : string -> json -> S -> result S) name :
  (forall k v s, isField name k = true -> isStringOrNull v = false ->
                 exists e, field k v s = Err e) ->
  forall members s, stringsAt name members = false ->
                    exists e, storeMembers field members s = Err e.
Proof.
  intros Bad. induction members as [|[k v] members IH]; intros s B; simpl;
    [discriminate|].
  simpl in B.
  destruct (field k v s) as [s'|e] eqn:F; [|now exists e].
  apply IH. apply andb_false_iff in B as [B|B]; [|exact B].
  apply orb_false_elim in B as [B1 B2]. apply negb_false_iff in B1.
  destruct (Bad k v s B1 B2) as [e E]. congruence.
Qed.

(** Members that fit never make the decoding fail. *)
Lemma storeMembers_fits {S : Type} (field : string -> json -> S -> result S) name :
  (forall k v s, isField name k = false -> field k v s = Ok s) ->
  (forall k v s, isField name k = true -> isStringOrNull v = true ->
                 exists s', field k v s = Ok s') ->
  forall members s, stringsAt name members = true ->
                    exists s', storeMembers field members s = Ok s'.
Proof.
  intros Skip Fit. induction members as [|[k v] members IH]; intros s B; simpl;
    [now exists s|].
  simpl in B. apply andb_prop in B as [B0 B].
  destruct (isField name k) eqn:K; simpl in B0.
  - destruct (Fit k v s K B0) as [s' E]. rewrite E. now apply IH.
  - rewrite (Skip k v s K). now apply IH.
Qed.

Lemma CEPRequest_field_skip k v s :
  isField "cep" k = false -> CEPRequest_field k v s = Ok s.
Proof. intro K. unfold CEPRequest_field. now rewrite K. Qed.

Lemma CEPRequest_field_bad k v s :
  isField "cep" k = true -> isStringOrNull v = false ->
  exists e, CEPRequest_field k v s = Err e.
Proof.
  intros K B. unfold CEPRequest_field. rewrite K.
  destruct v; try discriminate; eexists; reflexivity.
Qed.

Lemma CEPRequest_field_fit k v s :
  isField "cep" k = true -> isStringOrNull v = true ->
  exists s', CEPRequest_field k v s = Ok s'.
Proof.
  intros K B. unfold CEPRequest_field. rewrite K.
  destruct v; try discriminate; eexists; reflexivity.
Qed.

Lemma ViaCEPResponse_field_skip k v s :
  isField "localidade" k = false -> ViaCEPResponse_field k v s = Ok s.
Proof. intro K. unfold ViaCEPResponse_field. now rewrite K. Qed.

(** A request body whose last [cep] member (in any letter case) is a string
    decodes to that string: earlier [cep] members that are strings or
    [null] are overwritten, and members with other names are ignored. *)
Theorem Decode_CEPRequest_last_member r before k cep after :
  scanStream r = Ok (JObject (before ++ (k, JString cep) :: after)) ->
  isField "cep" k = true ->
  stringsAt "cep" before = true ->
  hasMember "cep" after = false ->
  Decode_CEPRequest r = Ok {| CEP := cep |}.
Proof.
  intros Sc K B A. unfold Decode_CEPRequest. rewrite Sc. simpl.
  apply (storeMembers_last CEPRequest_field "cep" (fun x => {| CEP := x |}));
    try assumption.
  - apply CEPRequest_field_skip.
  - intros k0 s K0. unfold CEPRequest_field. rewrite K0. now destruct s.
  - intros k0 x s K0. unfold CEPRequest_field. now rewrite K0.
Qed.

(** A request body without [cep] member (or the body [null]) decodes to
    the empty postal code. *)
Lemma Decode_CEPRequest_lacking r v :
  scanStream r = Ok v ->
  lacksField "cep" v = true ->
  Decode_CEPRequest r = Ok {| CEP := EmptyString |}.
Proof.
  intros Sc L. unfold Decode_CEPRequest. rewrite Sc.
  destruct v as [| | | | |members]; try discriminate; simpl; [reflexivity|].
  apply (storeMembers_skipped CEPRequest_field "cep" CEPRequest_field_skip).
  now apply negb_true_iff in L.
Qed.

(** A request body fails to decode exactly when the scanner rejects it or
    the scanned value is mistyped: not an object, or with a [cep] member
    that is neither a string nor [null]. *)
Theorem Decode_CEPRequest_error_iff r :
  (exists e, Decode_CEPRequest r = Err e) <->
  (exists e, scanStream r = Err e) \/
  (exists v, scanStream r = Ok v /\ mistyped "cep" v = true).
Proof.
  unfold Decode_CEPRequest. destruct (scanStream r) as [v|e0] eqn:Sc.
  2:{ split; [intros _; left; now exists e0|intros _; now exists e0]. }
  split.
  - intros [e E]. right. exists v. split; [reflexivity|].
    destruct v as [| | | | |members]; try reflexivity; simpl in *.
    + discriminate.
    + destruct (stringsAt "cep" members) eqn:B; [|reflexivity].
      destruct (storeMembers_fits CEPRequest_field "cep" CEPRequest_field_skip
                  CEPRequest_field_fit members {| CEP := EmptyString |} B)
        as [s' E']. congruence.
  - intros [[e E]|(v' & [= <-] & M)]; [discriminate|].
    destruct v as [| | | | |members]; try (eexists; reflexivity); simpl in *.
    + discriminate.
    + apply negb_true_iff in M.
      apply (storeMembers_mistyped CEPRequest_field "cep" CEPRequest_field_bad
               members _ M).
Qed.

End Decoding.

(** ** Requests of unusual shape *)

Section RequestShapes.
Context `{Library}.
Variable net : Transport.

Lemma Decode_CEPRequest_mistyped r v :
  scanStream r = Ok v ->
  mistyped "cep" v = true ->
  exists e, Decode_CEPRequest r = Err e.
Proof.
  intros Sc M. unfold Decode_CEPRequest. rewrite Sc.
  destruct v as [| | | | |members]; try (eexists; reflexivity); simpl in *.
  - discriminate.
  - apply negb_true_iff in M.
    apply (storeMembers_mistyped CEPRequest_field "cep" CEPRequest_field_bad
             members _ M).
Qed.

Lemma handleTemperature_undecodable r l err :
  Decode_CEPRequest r = Err err ->
  ServiceB.handleTemperature net http.newResponse r l
  = (http.Error http.newResponse "invalid request body" 400, l).
Proof. intro D. unfold ServiceB.handleTemperature. now rewrite D. Qed.

(** A request without [cep] member, or the body [null], is not a decoding
    error for the gateway: the postal code is empty, validation fails and
    the answer is 422 ["invalid zipcode"]; nothing is sent. *)
Theorem handleCEP_missing_cep r v :
  scanStream r = Ok v ->
  lacksField "cep" v = true ->
  exists w, run (ServiceA.handleCEP net http.newResponse r) = (Some w, []) /\
            http.status w = Some 422 /\
            http.body w = "invalid zipcode" ++ newline.
Proof.
  intros Sc L. unfold run.
  rewrite (handleCEP_invalid net r {| CEP := EmptyString |} []
             (Decode_CEPRequest_lacking r v Sc L) eq_refl).
  eexists. split; [reflexivity|]. split; reflexivity.
Qed.

(** A body that is JSON but mistyped (not an object, or with a [cep] that
    is a number, a boolean, an array or an object) is answered 400
    ["invalid request body"] by both services, and nothing is sent. *)
Theorem mistyped_cep_is_bad_request r v :
  scanStream r = Ok v ->
  mistyped "cep" v = true ->
  (exists w, run (ServiceA.handleCEP net http.newResponse r) = (Some w, []) /\
             http.status w = Some 400 /\
             http.body w = "invalid request body" ++ newline) /\
  (exists w, run (ServiceB.handleTemperature net http.newResponse r)
             = (Some w, []) /\
             http.status w = Some 400 /\
             http.body w = "invalid request body" ++ newline).
Proof.
  intros Sc M. destruct (Decode_CEPRequest_mistyped r v Sc M) as [e D].
  unfold run. split.
  - rewrite (handleCEP_undecodable net r [] e D).
    eexists. split; [reflexivity|]. split; reflexivity.
  - rewrite (handleTemperature_undecodable r [] e D).
    eexists. split; [reflexivity|]. split; reflexivity.
Qed.

(** The first outbound call of [handleTemperature] is the geocoding request
    for the postal code it decoded. *)
Lemma handleTemperature_first_call r req get :
  Decode_CEPRequest r = Ok req ->
  http.NewRequestWithContext "GET"
    ("https://viacep.com.br/ws/" ++ CEP req ++ "/json/") None = Ok get ->
  exists rest,
    snd (run (ServiceB.handleTemperature net http.newResponse r)) = get :: rest.
Proof.
  intros D E. unfold run, ServiceB.handleTemperature. rewrite D. prog.
  destruct (fetchCity_log net (CEP req) [] get E) as [sent L].
  destruct (ServiceB.fetchCityFromCEP net (CEP req) []) as [[city|e] l1];
    simpl in L; subst l1.
  - destruct (fetchTemperature_log net city (get :: sent)) as [more L].
    destruct (ServiceB.fetchTemperature net city _) as [[c|e] l2];
      simpl in L; subst l2; simpl; eexists; reflexivity.
  - destruct (e =? "invalid zipcode")%string;
      [|destruct (e =? "city not found")%string]; simpl; eexists; reflexivity.
Qed.

(** Service B does not validate: called directly with a postal code that
    [isValidCEP] rejects, [handleTemperature] still asks the geocoding
    provider about it, as its first outbound call. *)
Theorem handleTemperature_does_not_validate r req get :
  Decode_CEPRequest r = Ok req ->
  isValidCEP (CEP req) = false ->
  http.NewRequestWithContext "GET"
    ("https://viacep.com.br/ws/" ++ CEP req ++ "/json/") None = Ok get ->
  exists rest,
    snd (run (ServiceB.handleTemperature net http.newResponse r)) = get :: rest.
Proof. intros D _ E. exact (handleTemperature_first_call r req get D E). Qed.

End RequestShapes.

(** ** The two clients, exactly *)

Section Clients.
Context `{Library}.
Variable net : Transport.

(** [fetchCityFromCEP] returns a city exactly when the request could be
    created and sent, the provider answered with a status other than 400
    and 404 (200 is not required), the answer could be read and decoded,
    and its city is not empty; one request was sent. *)
Theorem fetchCityFromCEP_success_iff cep l city l' :
  ServiceB.fetchCityFromCEP net cep l = (Ok city, l') <->
  exists get resp sent b v,
    http.NewRequestWithContext "GET" ("https://viacep.com.br/ws/" ++ cep ++ "/json/")
      None = Ok get /\
    net get = (Ok resp, sent) /\
    StatusCode resp <> 400 /\ StatusCode resp <> 404 /\
    ReadAll (Body resp) = Ok b /\
    Unmarshal_ViaCEPResponse b = Ok v /\
    Localidade v = city /\ city <> EmptyString /\
    l' = (l ++ get :: sent)%list.
Proof.
  unfold ServiceB.fetchCityFromCEP. split.
  - destruct (http.NewRequestWithContext _ _ _) as [get|e] eqn:E; prog;
      [|discriminate].
    destruct (net get) as [[resp|e] sent] eqn:N; [|discriminate].
    unfold http.StatusBadRequest, http.StatusNotFound.
    destruct (StatusCode resp =? 400) eqn:S1; [discriminate|].
    destruct (StatusCode resp =? 404) eqn:S2; [discriminate|].
    destruct (ReadAll _) as [b|e] eqn:R; [|discriminate].
    destruct (Unmarshal_ViaCEPResponse b) as [v|e] eqn:U; [|discriminate].
    destruct (Localidade v =? EmptyString)%string eqn:L; [discriminate|].
    intros [= <- <-]. exists get, resp, sent, b, v.
    apply Z.eqb_neq in S1, S2. apply String.eqb_neq in L.
    repeat split; assumption.
  - intros (get & resp & sent & b & v & E & N & S1 & S2 & R & U & <- & L & ->).
    rewrite E. prog. rewrite N. apply Z.eqb_neq in S1, S2.
    unfold http.StatusBadRequest, http.StatusNotFound.
    rewrite S1, S2, R, U. apply String.eqb_neq in L. now rewrite L.
Qed.

(** [fetchTemperature] returns a temperature exactly when the request could
    be created and sent, the provider answered with status 200, the
    answer decoded, and its [temp_c] does not equal zero; one request was
    sent. *)
Theorem fetchTemperature_success_iff city l tempC l' :
  ServiceB.fetchTemperature net city l = (Ok tempC, l') <->
  exists get resp sent weatherResp,
    http.NewRequestWithContext "GET" (weatherURLFor city) None = Ok get /\
    net get = (Ok resp, sent) /\
    StatusCode resp = 200 /\
    Decode_WeatherAPIResponse (Body resp) = Ok weatherResp /\
    WeatherAPIResponse.TempC (WeatherAPIResponse.Current weatherResp) = tempC /\
    (tempC =? 0)%float = false /\
    l' = (l ++ get :: sent)%list.
Proof.
  unfold ServiceB.fetchTemperature. fold (weatherURLFor city). split.
  - destruct (http.NewRequestWithContext _ _ _) as [get|e] eqn:E; prog;
      [|discriminate].
    destruct (net get) as [[resp|e] sent] eqn:N; [|discriminate].
    unfold http.StatusOK.
    destruct (StatusCode resp =? 200) eqn:S; simpl; [|discriminate].
    destruct (Decode_WeatherAPIResponse _) as [wr|e] eqn:D; [|discriminate].
    destruct (_ =? 0)%float eqn:Z0; [discriminate|].
    intros [= <- <-]. exists get, resp, sent, wr. apply Z.eqb_eq in S.
    repeat split; assumption.
  - intros (get & resp & sent & wr & E & N & S & D & <- & Z0 & ->).
    rewrite E. prog. rewrite N, S, D. simpl. now rewrite Z0.
Qed.

(** The geocoding answer may carry any other members: the city is the last
    [localidade] member (in any letter case), when it is a string, and it
    is returned when it is not empty. *)
Theorem fetchCityFromCEP_finds_city cep l get resp sent b before k city after :
  http.NewRequestWithContext "GET" ("https://viacep.com.br/ws/" ++ cep ++ "/json/")
    None = Ok get ->
  net get = (Ok resp, sent) ->
  StatusCode resp <> 400 -> StatusCode resp <> 404 ->
  ReadAll (Body resp) = Ok b ->
  scanBytes b = Ok (JObject (before ++ (k, JString city) :: after)) ->
  isField "localidade" k = true ->
  stringsAt "localidade" before = true ->
  hasMember "localidade" after = false ->
  city <> EmptyString ->
  ServiceB.fetchCityFromCEP net cep l = (Ok city, (l ++ get :: sent)%list).
Proof.
  intros E N S1 S2 R Sc K B A L.
  assert (U : Unmarshal_ViaCEPResponse b = Ok {| Localidade := city |}).
  { unfold Unmarshal_ViaCEPResponse. rewrite Sc. simpl.
    apply (storeMembers_last ViaCEPResponse_field "localidade"
             (fun x => {| Localidade := x |})); try assumption.
    - apply ViaCEPResponse_field_skip.
    - intros k0 s K0. unfold ViaCEPResponse_field. rewrite K0. now destruct s.
    - intros k0 x s K0. unfold ViaCEPResponse_field. now rewrite K0. }
  unfold ServiceB.fetchCityFromCEP. rewrite E. prog. rewrite N.
  apply Z.eqb_neq in S1, S2. unfold http.StatusBadRequest, http.StatusNotFound.
  rewrite S1, S2, R, U. simpl. apply String.eqb_neq in L. now rewrite L.
Qed.

Lemma hasMember_lacksTempC members :
  hasMember "current" members = false -> lacksTempC (JObject members) = true.
Proof.
  induction members as [|[k v] members IH]; simpl; [reflexivity|].
  intro Hm. apply orb_false_elim in Hm as [Hk Hm]. rewrite Hk. simpl.
  now apply IH.
Qed.

(** The [temp_c] a weather answer decodes to, when the answer has one
    [current] object with one [temp_c] number among any other members. *)
Lemma Decode_reads_temp_c r before k ib k2 lit ia after t weatherResp :
  scanStream r
  = Ok (JObject (before ++ (k, JObject (ib ++ (k2, JNumber lit) :: ia)) :: after)) ->
  isField "current" k = true ->
  hasMember "current" before = false -> hasMember "current" after = false ->
  isField "temp_c" k2 = true ->
  hasMember "temp_c" ib = false -> hasMember "temp_c" ia = false ->
  ParseFloat lit = Some t ->
  Decode_WeatherAPIResponse r = Ok weatherResp ->
  WeatherAPIResponse.TempC (WeatherAPIResponse.Current weatherResp) = t.
Proof.
  intros Sc K B A K2 IB IA P D. unfold Decode_WeatherAPIResponse in D.
  rewrite Sc in D. simpl in D. rewrite storeMembers_app in D.
  destruct (storeMembers WeatherAPIResponse_field before _) as [s1|e] eqn:B1;
    [|discriminate].
  simpl in D. unfold WeatherAPIResponse_field in D at 1. rewrite K in D.
  simpl in D.
  destruct (storeMembers Current_field _ _) as [c1|e] eqn:C; [|discriminate].
  rewrite (Weather_members_keep after (hasMember_lacksTempC after A) _ _ D).
  simpl. clear D.
  rewrite storeMembers_app in C.
  destruct (storeMembers Current_field ib _) as [c0|e] eqn:C0; [|discriminate].
  simpl in C. unfold Current_field in C at 1. rewrite K2 in C. simpl in C.
  rewrite P in C.
  now rewrite (Current_members_keep ia IA _ _ C).
Qed.

(** The weather answer may carry any other members: [fetchTemperature]
    returns the number of its [current.temp_c] member as
    [strconv.ParseFloat] reads it, unless that number equals zero. *)
Theorem fetchTemperature_reads_temp_c city l get resp sent
    before k ib k2 lit ia after t weatherResp :
  http.NewRequestWithContext "GET" (weatherURLFor city) None = Ok get ->
  net get = (Ok resp, sent) ->
  StatusCode resp = 200 ->
  scanStream (Body resp)
  = Ok (JObject (before ++ (k, JObject (ib ++ (k2, JNumber lit) :: ia)) :: after)) ->
  isField "current" k = true ->
  hasMember "current" before = false -> hasMember "current" after = false ->
  isField "temp_c" k2 = true ->
  hasMember "temp_c" ib = false -> hasMember "temp_c" ia = false ->
  ParseFloat lit = Some t ->
  Decode_WeatherAPIResponse (Body resp) = Ok weatherResp ->
  ServiceB.fetchTemperature net city l
  = (if (t =? 0)%float then Err "invalid temperature data" else Ok t,
     (l ++ get :: sent)%list).
Proof.
  intros E N S Sc K B A K2 IB IA P D.
  rewrite (fetchTemperature_decoded net city l get resp sent weatherResp E N S D).
  simpl.
  now rewrite (Decode_reads_temp_c _ before k ib k2 lit ia after t weatherResp
                 Sc K B A K2 IB IA P D).
Qed.

End Clients.

(** ** How many calls, and in which order *)

Section CallDiscipline.
Context `{Library}.
(** External providers: they send nothing we observe. *)
Variable f : Request -> result Response.

Lemma fetchCity_external_log cep l :
  snd (ServiceB.fetchCityFromCEP (external f) cep l)
  = (l ++ match http.NewRequestWithContext "GET"
                  ("https://viacep.com.br/ws/" ++ cep ++ "/json/") None with
          | Ok get => [get]
          | Err _ => []
          end)%list.
Proof.
  unfold ServiceB.fetchCityFromCEP.
  destruct (http.NewRequestWithContext _ _ _) as [get|e]; prog; simpl;
    [|now rewrite app_nil_r].
  destruct (f get) as [resp|e]; [|reflexivity].
  destruct (StatusCode resp =? _); [reflexivity|].
  destruct (StatusCode resp =? _); [reflexivity|].
  destruct (ReadAll _) as [b|e]; [|reflexivity].
  destruct (Unmarshal_ViaCEPResponse b) as [v|e]; [|reflexivity].
  now destruct (Localidade v =? EmptyString)%string.
Qed.

Lemma fetchTemperature_external_log city l :
  snd (ServiceB.fetchTemperature (external f) city l)
  = (l ++ match http.NewRequestWithContext "GET" (weatherURLFor city) None with
          | Ok get => [get]
          | Err _ => []
          end)%list.
Proof.
  unfold ServiceB.fetchTemperature. fold (weatherURLFor city).
  destruct (http.NewRequestWithContext _ _ _) as [get|e]; prog; simpl;
    [|now rewrite app_nil_r].
  destruct (f get) as [resp|e]; [|reflexivity].
  destruct (negb _); [reflexivity|].
  destruct (Decode_WeatherAPIResponse _) as [wr|e]; [|reflexivity].
  now destruct (_ =? 0)%float.
Qed.

(** The calls of [handleTemperature]: none, or one to the geocoding
    provider, or that one followed by one to the weather provider for the
    city the geocoding stage returned.  There is no retry, and the weather
    provider is never asked before a city is known. *)
Theorem handleTemperature_call_order w r :
  let log := snd (run (ServiceB.handleTemperature (external f) w r)) in
  log = [] \/
  exists req get,
    Decode_CEPRequest r = Ok req /\
    http.NewRequestWithContext "GET"
      ("https://viacep.com.br/ws/" ++ CEP req ++ "/json/") None = Ok get /\
    (log = [get] \/
     exists city wget,
       fst (run (ServiceB.fetchCityFromCEP (external f) (CEP req))) = Ok city /\
       http.NewRequestWithContext "GET" (weatherURLFor city) None = Ok wget /\
       log = [get; wget]).
Proof.
  unfold run, ServiceB.handleTemperature.
  destruct (Decode_CEPRequest r) as [req|e] eqn:D; [|now left]. prog.
  pose proof (fetchCity_external_log (CEP req) []) as L1.
  destruct (ServiceB.fetchCityFromCEP (external f) (CEP req) []) as [c l1] eqn:F.
  cbn [snd] in L1. rewrite app_nil_l in L1. subst l1.
  destruct (http.NewRequestWithContext "GET"
              ("https://viacep.com.br/ws/" ++ CEP req ++ "/json/") None)
    as [get|e] eqn:E.
  - right. exists req, get. split; [reflexivity|]. split; [exact E|].
    destruct c as [city|e].
    + pose proof (fetchTemperature_external_log city [get]) as L2.
      destruct (ServiceB.fetchTemperature (external f) city [get]) as [t l2].
      cbn [snd] in L2. subst l2.
      destruct (http.NewRequestWithContext "GET" (weatherURLFor city) None)
        as [wget|e] eqn:E2.
      * right. exists city, wget. split; [now rewrite F|]. split; [exact E2|].
        now destruct t.
      * left. now destruct t.
    + left. destruct (e =? "invalid zipcode")%string;
        [|destruct (e =? "city not found")%string]; reflexivity.
  - left. destruct c as [city|e0].
    + unfold ServiceB.fetchCityFromCEP in F. rewrite E in F. discriminate.
    + destruct (e0 =? "invalid zipcode")%string;
        [|destruct (e0 =? "city not found")%string]; reflexivity.
Qed.

Lemma handleTemperature_external_calls w r :
  (List.length (snd (run (ServiceB.handleTemperature (external f) w r))) <= 2)%nat.
Proof.
  unfold run, ServiceB.handleTemperature.
  destruct (Decode_CEPRequest r) as [req|e]; [|simpl; lia]. prog.
  pose proof (fetchCity_external_log (CEP req) []) as L1.
  destruct (ServiceB.fetchCityFromCEP (external f) (CEP req) []) as [c l1].
  cbn [snd] in L1. rewrite app_nil_l in L1.
  assert (N1 : (List.length l1 <= 1)%nat).
  { subst l1. destruct (http.NewRequestWithContext _ _ _); simpl; lia. }
  destruct c as [city|e].
  - pose proof (fetchTemperature_external_log city l1) as L2.
    destruct (ServiceB.fetchTemperature (external f) city l1) as [t l2].
    cbn [snd] in L2.
    assert (N2 : (List.length l2 <= 2)%nat).
    { rewrite L2, List.length_app.
      destruct (http.NewRequestWithContext "GET" (weatherURLFor city) None);
        simpl; lia. }
    destruct t; cbn [snd]; exact N2.
  - destruct (e =? "invalid zipcode")%string;
      [|destruct (e =? "city not found")%string]; cbn [snd]; lia.
Qed.

(** The calls of a whole request to [POST /cep]: none, or one [POST] to
    service B followed by at most two calls of service B.  No request
    causes more than three outbound calls. *)
Theorem pipeline_call_budget link r :
  let log := snd (run (Pipeline.handle (external f) link r)) in
  log = [] \/
  exists post calls,
    log = post :: calls /\
    Method post = "POST" /\ URL post = "http://service-b:8081/temperature" /\
    (List.length calls <= 2)%nat.
Proof.
  unfold Pipeline.handle, run, ServiceA.handleCEP.
  destruct (Decode_CEPRequest r) as [req|e]; [|now left].
  destruct (isValidCEP (CEP req)); simpl negb; cbv iota; [|now left].
  destruct (Marshal_CEPRequest req) as [b|e]; [|now left].
  destruct (http.NewRequestWithContext _ _ _) as [post|e] eqn:E; [|now left].
  right. prog.
  unfold http.NewRequestWithContext in E.
  destruct (newRequestErr _ _); [discriminate|]. injection E as <-.
  unfold Pipeline.serviceB at 1.
  destruct (link _) as [e|].
  - eexists _, []. split; [reflexivity|]. repeat split. simpl; lia.
  - pose proof (handleTemperature_external_calls http.newResponse
                  (Pipeline.requestBody
                     (setRequestHeader (Header_Set "Content-Type" "application/json")
                        (setRequestHeader Inject
                           {| Method := "POST";
                              URL := "http://service-b:8081/temperature";
                              ReqHeader := []; ReqBody := Some b |})))) as N.
    destruct (run (ServiceB.handleTemperature (external f) http.newResponse _))
      as [reply sent].
    simpl in N. simpl.
    eexists _, sent. split.
    { unfold Pipeline.deliver. destruct reply as [wB|]; [|reflexivity].
      cbn [ReadAll Body bytesReader readErr data StatusCode].
      now destruct (http.WriteHeader _ _). }
    repeat split. exact N.
Qed.

End CallDiscipline.

(** ** What the caller can receive *)

Section Replies.
Context `{Library}.
Variable net : Transport.

(** The replies of [handleTemperature]: one of five fixed messages with its
    status, or status 200 with the encoded response. *)
Lemma handleTemperature_replies r l :
  exists w,
    fst (ServiceB.handleTemperature net http.newResponse r l) = Some w /\
    ((http.status w = Some 400 /\ http.body w = "invalid request body" ++ newline) \/
     (http.status w = Some 422 /\ http.body w = "invalid zipcode" ++ newline) \/
     (http.status w = Some 404 /\ http.body w = "can not find zipcode" ++ newline) \/
     (http.status w = Some 500 /\ http.body w = "failed to fetch city" ++ newline) \/
     (http.status w = Some 500 /\
      http.body w = "failed to fetch temperature" ++ newline) \/
     (http.finalStatus w = 200 /\
      (http.body w = EmptyString \/
       exists response b,
         Marshal_TemperatureResponse response = Ok b /\
         http.body w = b ++ newline))).
Proof.
  unfold ServiceB.handleTemperature.
  destruct (Decode_CEPRequest r) as [req|e]; prog.
  2:{ eexists. split; [reflexivity|]. left. split; reflexivity. }
  destruct (ServiceB.fetchCityFromCEP net (CEP req) l) as [[city|e] l1].
  - destruct (ServiceB.fetchTemperature net city l1) as [[c|e] l2].
    + eexists. split; [reflexivity|]. do 5 right.
      unfold Encode_TemperatureResponse.
      destruct (Marshal_TemperatureResponse _) as [b|e] eqn:M.
      * split; [reflexivity|]. right. eexists _, b. split; [exact M|reflexivity].
      * split; [reflexivity|]. now left.
    + eexists. split; [reflexivity|]. do 4 right. left. split; reflexivity.
  - destruct (e =? "invalid zipcode")%string;
      [|destruct (e =? "city not found")%string];
      (eexists; split; [reflexivity|]).
    + right; left. split; reflexivity.
    + do 2 right; left. split; reflexivity.
    + do 3 right; left. split; reflexivity.
Qed.

(** When the response cannot be encoded (an infinite Fahrenheit value, for
    a reading near the largest float), [handleTemperature] writes nothing:
    the caller receives status 200 with an empty body. *)
Theorem handleTemperature_unencodable r req l city l1 c l2 err :
  Decode_CEPRequest r = Ok req ->
  ServiceB.fetchCityFromCEP net (CEP req) l = (Ok city, l1) ->
  ServiceB.fetchTemperature net city l1 = (Ok c, l2) ->
  Marshal_TemperatureResponse
    {| TemperatureResponse.City := city; TemperatureResponse.TempC := c;
       TemperatureResponse.TempF := (c * 1.8 + 32)%float;
       TemperatureResponse.TempK := (c + 273)%float |} = Err err ->
  exists w,
    ServiceB.handleTemperature net http.newResponse r l = (Some w, l2) /\
    http.status w = None /\ http.finalStatus w = 200 /\
    http.body w = EmptyString.
Proof.
  intros D F T M. unfold ServiceB.handleTemperature. rewrite D. prog.
  rewrite F, T. unfold Encode_TemperatureResponse. rewrite M.
  eexists. split; [reflexivity|]. repeat split.
Qed.

(** The gateway relays any final status that allows a body, not only the
    five of service B, and labels every relayed body [application/json]. *)
Theorem handleCEP_relays_any_status r req l b post resp sent body :
  Decode_CEPRequest r = Ok req ->
  isValidCEP (CEP req) = true ->
  Marshal_CEPRequest req = Ok b ->
  http.NewRequestWithContext "POST" "http://service-b:8081/temperature" (Some b)
    = Ok post ->
  net (setRequestHeader (Header_Set "Content-Type" "application/json")
         (setRequestHeader Inject post)) = (Ok resp, sent) ->
  ReadAll (Body resp) = Ok body ->
  200 <= StatusCode resp <= 999 ->
  StatusCode resp <> 204 -> StatusCode resp <> 304 ->
  exists w, fst (ServiceA.handleCEP net http.newResponse r l) = Some w /\
            http.status w = Some (StatusCode resp) /\
            http.body w = body /\
            http.header w = [("Content-Type", "application/json")].
Proof.
  intros D V M E N R S S204 S304.
  rewrite (handleCEP_answered net r req l b post resp sent body D V M E N R).
  unfold http.WriteHeader, http.setHeader, http.newResponse. simpl http.status.
  cbv iota.
  replace ((StatusCode resp <? 100) || (999 <? StatusCode resp)) with false
    by (symmetry; apply orb_false_intro; [apply Z.ltb_ge|apply Z.ltb_ge]; lia).
  replace (StatusCode resp <=? 199) with false by (symmetry; apply Z.leb_gt; lia).
  simpl andb. cbv iota.
  eexists. split; [reflexivity|].
  unfold http.Write. simpl.
  assert (A : http.bodyAllowedForStatus (StatusCode resp) = true).
  { unfold http.bodyAllowedForStatus.
    replace (StatusCode resp <=? 199) with false by (symmetry; apply Z.leb_gt; lia).
    apply Z.eqb_neq in S204, S304. rewrite S204, S304.
    now rewrite andb_false_r. }
  rewrite A. repeat split.
Qed.

End Replies.

Section WholeRequests.
Context `{Library}.
Variable providers : Transport.
Variable link : Request -> option error.

(** A request that succeeds at every stage: the caller of [POST /cep]
    receives status 200 and the encoding of the response service B built
    from the city and the reading, and the calls are the [POST] followed
    by the calls of the two clients. *)
Theorem pipeline_success r req b post req' city l1 c l2 text :
  Decode_CEPRequest r = Ok req ->
  isValidCEP (CEP req) = true ->
  Marshal_CEPRequest req = Ok b ->
  http.NewRequestWithContext "POST" "http://service-b:8081/temperature" (Some b)
    = Ok post ->
  let httpReq :=
    setRequestHeader (Header_Set "Content-Type" "application/json")
      (setRequestHeader Inject post) in
  link httpReq = None ->
  Decode_CEPRequest (bytesReader b) = Ok req' ->
  ServiceB.fetchCityFromCEP providers (CEP req') [] = (Ok city, l1) ->
  ServiceB.fetchTemperature providers city l1 = (Ok c, l2) ->
  Marshal_TemperatureResponse
    {| TemperatureResponse.City := city; TemperatureResponse.TempC := c;
       TemperatureResponse.TempF := (c * 1.8 + 32)%float;
       TemperatureResponse.TempK := (c + 273)%float |} = Ok text ->
  exists w, run (Pipeline.handle providers link r) = (Some w, httpReq :: l2) /\
            http.status w = Some 200 /\
            http.body w = text ++ newline.
Proof.
  intros D V M E httpReq L D' F T MT.
  assert (R : run (ServiceB.handleTemperature providers http.newResponse
                     (bytesReader b))
              = (Some (http.Write (text ++ newline)
                         (http.setHeader
                            (Header_Set "Content-Type" "application/json")
                            http.newResponse)), l2)).
  { unfold run, ServiceB.handleTemperature. rewrite D'. prog. rewrite F, T.
    unfold Encode_TemperatureResponse. now rewrite MT. }
  destruct (pipeline_relays providers link r req b post _ l2 D V M E L R)
    as (w & P & S & B).
  exists w. split; [exact P|]. split; [exact S|exact B].
Qed.

(** The postal code service B looks up is the one it decodes from the body
    the gateway marshalled: the calls of a delivered request start with the
    [POST] and the geocoding request for that postal code. *)
Theorem pipeline_looks_up_forwarded_cep r req b post req' get :
  Decode_CEPRequest r = Ok req ->
  isValidCEP (CEP req) = true ->
  Marshal_CEPRequest req = Ok b ->
  http.NewRequestWithContext "POST" "http://service-b:8081/temperature" (Some b)
    = Ok post ->
  let httpReq :=
    setRequestHeader (Header_Set "Content-Type" "application/json")
      (setRequestHeader Inject post) in
  link httpReq = None ->
  Decode_CEPRequest (bytesReader b) = Ok req' ->
  http.NewRequestWithContext "GET"
    ("https://viacep.com.br/ws/" ++ CEP req' ++ "/json/") None = Ok get ->
  exists rest,
    snd (run (Pipeline.handle providers link r)) = httpReq :: get :: rest /\
    ReqBody httpReq = Some b.
Proof.
  intros D V M E httpReq L D' G.
  destruct (handleTemperature_first_call providers (bytesReader b) req' get D' G)
    as [rest F].
  destruct (handleTemperature_statuses providers (bytesReader b) [])
    as (reply & R & _).
  destruct (run (ServiceB.handleTemperature providers http.newResponse
                   (bytesReader b))) as [ow sent] eqn:Run.
  unfold run in Run. rewrite Run in R. simpl in R, F. subst ow sent.
  destruct (pipeline_relays providers link r req b post reply _ D V M E L Run)
    as (w & P & _).
  exists rest. rewrite P. split; [reflexivity|].
  simpl. now apply NewRequest_body in E.
Qed.

(** The replies of [POST /cep]: one of seven fixed messages with its
    status, or status 200 with the encoded response (or with nothing, when
    it cannot be encoded).  The text of an upstream error never reaches the
    caller. *)
Theorem pipeline_response_table r :
  exists w,
    fst (run (Pipeline.handle providers link r)) = Some w /\
    ((http.status w = Some 400 /\ http.body w = "invalid request body" ++ newline) \/
     (http.status w = Some 422 /\ http.body w = "invalid zipcode" ++ newline) \/
     (http.status w = Some 404 /\ http.body w = "can not find zipcode" ++ newline) \/
     (http.status w = Some 500 /\ http.body w = "internal server error" ++ newline) \/
     (http.status w = Some 500 /\
      http.body w = "failed to call service b" ++ newline) \/
     (http.status w = Some 500 /\ http.body w = "failed to fetch city" ++ newline) \/
     (http.status w = Some 500 /\
      http.body w = "failed to fetch temperature" ++ newline) \/
     (http.status w = Some 200 /\
      (http.body w = EmptyString \/
       exists response b,
         Marshal_TemperatureResponse response = Ok b /\
         http.body w = b ++ newline))).
Proof.
  destruct (Decode_CEPRequest r) as [req|err] eqn:D.
  2:{ destruct (pipeline_undecodable providers link r err D) as (w & R & S & B).
      exists w. rewrite R. split; [reflexivity|]. now left. }
  destruct (isValidCEP (CEP req)) eqn:V.
  2:{ destruct (pipeline_invalid providers link r req D V) as (w & R & S & B).
      exists w. rewrite R. split; [reflexivity|]. right; now left. }
  destruct (Marshal_CEPRequest req) as [b|e] eqn:M.
  2:{ unfold Pipeline.handle, run, ServiceA.handleCEP. rewrite D, V, M.
      eexists. split; [reflexivity|]. do 3 right; left. split; reflexivity. }
  destruct (http.NewRequestWithContext "POST" "http://service-b:8081/temperature"
              (Some b)) as [post|e] eqn:E.
  2:{ unfold Pipeline.handle, run, ServiceA.handleCEP. rewrite D, V, M.
      simpl negb. cbv iota. rewrite E.
      eexists. split; [reflexivity|]. do 3 right; left. split; reflexivity. }
  destruct (link (setRequestHeader (Header_Set "Content-Type" "application/json")
                    (setRequestHeader Inject post))) as [e|] eqn:L.
  { unfold Pipeline.handle, run, ServiceA.handleCEP. rewrite D, V, M.
    simpl negb. cbv iota. rewrite E. prog. unfold Pipeline.serviceB. rewrite L.
    eexists. split; [reflexivity|]. do 4 right; left. split; reflexivity. }
  destruct (handleTemperature_replies providers (bytesReader b) [])
    as (reply & F & T).
  destruct (ServiceB.handleTemperature providers http.newResponse
              (bytesReader b) []) as [ow sent] eqn:R.
  simpl in F. subst ow.
  destruct (pipeline_relays providers link r req b post reply sent D V M E L R)
    as (w & P & Sw & Bw).
  exists w. rewrite P. split; [reflexivity|]. rewrite Sw, Bw.
  destruct T as [[S B]|[[S B]|[[S B]|[[S B]|[[S B]|[S B]]]]]];
    try rewrite (finalStatus_of_status reply _ S).
  - now left.
  - right; now left.
  - do 2 right; now left.
  - do 5 right; now left.
  - do 6 right; now left.
  - do 7 right. rewrite S. split; [reflexivity|exact B].
Qed.

End WholeRequests.

(** ** The further properties on the concrete worlds *)

Section ConcreteWorld.
Import World.

Lemma isValidCEP_iff_witness :
  isValidCEP "+1234567" = true.
Proof.
  apply (proj2 (isValidCEP_iff "+1234567")). split; [reflexivity|].
  right. exists "+"%char, "1234567". repeat split. now right.
Defined.

Lemma Decode_CEPRequest_last_member_witness :
  Decode_CEPRequest (H := library) (ask twoCeps) = Ok {| CEP := "01001000" |} /\
  Decode_CEPRequest (H := library) (ask upperCep) = Ok {| CEP := "01001000" |}.
Proof.
  split.
  - apply (Decode_CEPRequest_last_member (H := library) (ask twoCeps)
             [("cep", JString "123")] "cep" "01001000" []); reflexivity.
  - apply (Decode_CEPRequest_last_member (H := library) (ask upperCep)
             [] "CEP" "01001000" []); reflexivity.
Defined.

Lemma Decode_CEPRequest_error_iff_witness :
  exists e, Decode_CEPRequest (H := library) (ask numberCep) = Err e.
Proof.
  apply (proj2 (Decode_CEPRequest_error_iff (H := library) (ask numberCep))).
  right. exists numberCep. split; reflexivity.
Defined.

Lemma handleCEP_missing_cep_witness :
  exists w,
    run (ServiceA.handleCEP (H := library) (reliableB (weatherAnswer "18.3"))
           http.newResponse (ask otherKey)) = (Some w, []) /\
    http.status w = Some 422 /\ http.body w = "invalid zipcode" ++ newline.
Proof.
  apply (handleCEP_missing_cep (H := library) (reliableB (weatherAnswer "18.3"))
           (ask otherKey) otherKey); reflexivity.
Defined.

Lemma mistyped_cep_is_bad_request_witness :
  (exists w,
      run (ServiceA.handleCEP (H := library) (reliableB (weatherAnswer "18.3"))
             http.newResponse (ask numberCep)) = (Some w, []) /\
      http.status w = Some 400 /\
      http.body w = "invalid request body" ++ newline) /\
  (exists w,
      run (ServiceB.handleTemperature (H := library)
             (providers (weatherAnswer "18.3")) http.newResponse (ask (JArray [])))
      = (Some w, []) /\
      http.status w = Some 400 /\
      http.body w = "invalid request body" ++ newline).
Proof.
  split.
  - apply (proj1 (mistyped_cep_is_bad_request (H := library)
                    (reliableB (weatherAnswer "18.3")) (ask numberCep) numberCep
                    eq_refl eq_refl)).
  - apply (proj2 (mistyped_cep_is_bad_request (H := library)
                    (providers (weatherAnswer "18.3")) (ask (JArray []))
                    (JArray []) eq_refl eq_refl)).
Defined.

Lemma handleTemperature_does_not_validate_witness :
  isValidCEP "123" = false /\
  exists rest,
    snd (run (ServiceB.handleTemperature (H := Demo.library)
                (Demo.providers Demo.sunny) http.newResponse (Demo.ask "123")))
    = Demo.viacepGet "123" :: rest.
Proof.
  split; [reflexivity|].
  apply (handleTemperature_does_not_validate (H := Demo.library)
           (Demo.providers Demo.sunny) (Demo.ask "123") {| CEP := "123" |}
           (Demo.viacepGet "123")); reflexivity.
Defined.

Lemma fetchCityFromCEP_success_iff_witness :
  ServiceB.fetchCityFromCEP (H := library) (providers (weatherAnswer "18.3"))
    "01001000" []
  = (Ok "Sao Paulo", [Demo.viacepGet "01001000"]).
Proof.
  apply (proj2 (fetchCityFromCEP_success_iff (H := library)
                  (providers (weatherAnswer "18.3")) "01001000" [] "Sao Paulo"
                  [Demo.viacepGet "01001000"])).
  exists (Demo.viacepGet "01001000"),
    {| StatusCode := 200; Body := bytesReader (render viacepAnswer) |}, [],
    (render viacepAnswer), {| Localidade := "Sao Paulo" |}.
  repeat split; try reflexivity; discriminate.
Defined.

Lemma fetchTemperature_success_iff_witness :
  ServiceB.fetchTemperature (H := library) (providers (weatherAnswer "18.3"))
    "Sao Paulo" []
  = (Ok 18.3%float, [weatherGet]).
Proof.
  apply (proj2 (fetchTemperature_success_iff (H := library)
                  (providers (weatherAnswer "18.3")) "Sao Paulo" [] 18.3%float
                  [weatherGet])).
  exists weatherGet,
    {| StatusCode := 200; Body := bytesReader (render (weatherAnswer "18.3")) |}, [],
    {| WeatherAPIResponse.Current := {| WeatherAPIResponse.TempC := 18.3 |};
       WeatherAPIResponse.Location := {| WeatherAPIResponse.Name := "Sao Paulo" |} |}.
  repeat split; reflexivity.
Defined.

Lemma fetchCityFromCEP_finds_city_witness :
  ServiceB.fetchCityFromCEP (H := library) (providers (weatherAnswer "18.3"))
    "01001000" []
  = (Ok "Sao Paulo", [Demo.viacepGet "01001000"]).
Proof.
  apply (fetchCityFromCEP_finds_city (H := library)
           (providers (weatherAnswer "18.3")) "01001000" []
           (Demo.viacepGet "01001000")
           {| StatusCode := 200; Body := bytesReader (render viacepAnswer) |} []
           (render viacepAnswer)
           [("cep", JString "01001-000"); ("logradouro", JString "Praca da Se")]
           "localidade" "Sao Paulo" [("uf", JString "SP")]);
    try reflexivity; discriminate.
Defined.

Lemma fetchTemperature_reads_temp_c_witness :
  ServiceB.fetchTemperature (H := library) (providers (weatherAnswer "18.3"))
    "Sao Paulo" []
  = (Ok 18.3%float, [weatherGet]).
Proof.
  apply (fetchTemperature_reads_temp_c (H := library)
           (providers (weatherAnswer "18.3")) "Sao Paulo" [] weatherGet
           {| StatusCode := 200; Body := bytesReader (render (weatherAnswer "18.3")) |}
           []
           [("location", JObject [("name", JString "Sao Paulo");
                                  ("lat", JNumber "-23.53")])]
           "current" [("last_updated", JString "2025-03-16 12:00")]
           "temp_c" "18.3" [("humidity", JNumber "70")] [] 18.3%float
           {| WeatherAPIResponse.Current := {| WeatherAPIResponse.TempC := 18.3 |};
              WeatherAPIResponse.Location :=
                {| WeatherAPIResponse.Name := "Sao Paulo" |} |});
    reflexivity.
Defined.

Lemma handleTemperature_unencodable_witness :
  (1e308 * 1.8 + 32)%float = infinity /\
  exists w,
    ServiceB.handleTemperature (H := library) (providers (weatherAnswer "1e308"))
      http.newResponse (Demo.ask "01001000") []
    = (Some w, [Demo.viacepGet "01001000"; weatherGet]) /\
    http.status w = None /\ http.finalStatus w = 200 /\
    http.body w = EmptyString.
Proof.
  split; [reflexivity|].
  apply (handleTemperature_unencodable (H := library)
           (providers (weatherAnswer "1e308")) (Demo.ask "01001000")
           {| CEP := "01001000" |} [] "Sao Paulo" [Demo.viacepGet "01001000"]
           1e308%float [Demo.viacepGet "01001000"; weatherGet]
           "json: unsupported value: +Inf"); reflexivity.
Defined.

Lemma handleCEP_relays_any_status_witness :
  exists w,
    fst (ServiceA.handleCEP (H := Demo.library)
           (external (fun _ => Demo.answer 503 "busy")) http.newResponse
           (Demo.ask "01001000") []) = Some w /\
    http.status w = Some 503 /\ http.body w = "busy" /\
    http.header w = [("Content-Type", "application/json")].
Proof.
  apply (handleCEP_relays_any_status (H := Demo.library)
           (external (fun _ => Demo.answer 503 "busy")) (Demo.ask "01001000")
           {| CEP := "01001000" |} [] (Demo.obj1 "cep" "01001000")
           (Demo.post "01001000")
           {| StatusCode := 503; Body := bytesReader "busy" |} [] "busy");
    try reflexivity; simpl; try lia; discriminate.
Defined.

Lemma pipeline_success_witness :
  exists w,
    run (Pipeline.handle (H := library) (providers (weatherAnswer "18.3"))
           Demo.reliable (Demo.ask "01001000"))
    = (Some w, [Demo.posted "01001000"; Demo.viacepGet "01001000"; weatherGet]) /\
    http.status w = Some 200 /\
    http.body w
    = render (JObject [("city", JString "Sao Paulo"); ("temp_C", JNumber "18.3");
                       ("temp_F", JNumber "64.94"); ("temp_K", JNumber "291.3")])
      ++ newline.
Proof.
  apply (pipeline_success (H := library) (providers (weatherAnswer "18.3"))
           Demo.reliable (Demo.ask "01001000") {| CEP := "01001000" |}
           (Demo.obj1 "cep" "01001000") (Demo.post "01001000")
           {| CEP := "01001000" |} "Sao Paulo" [Demo.viacepGet "01001000"]
           18.3%float [Demo.viacepGet "01001000"; weatherGet]); reflexivity.
Defined.

Lemma pipeline_looks_up_forwarded_cep_witness :
  exists rest,
    snd (run (Pipeline.handle (H := library) (providers (weatherAnswer "18.3"))
                Demo.reliable (ask twoCeps)))
    = Demo.posted "01001000" :: Demo.viacepGet "01001000" :: rest /\
    ReqBody (Demo.posted "01001000") = Some (Demo.obj1 "cep" "01001000").
Proof.
  apply (pipeline_looks_up_forwarded_cep (H := library)
           (providers (weatherAnswer "18.3")) Demo.reliable (ask twoCeps)
           {| CEP := "01001000" |} (Demo.obj1 "cep" "01001000")
           (Demo.post "01001000") {| CEP := "01001000" |}
           (Demo.viacepGet "01001000")); reflexivity.
Defined.

Lemma outbound_calls_only_after_validation_witness :
  exists req,
    Decode_CEPRequest (H := Demo.library) (Demo.ask "00000000") = Ok req /\
    isValidCEP (CEP req) = true.
Proof.
  apply (outbound_calls_only_after_validation (H := Demo.library)
           (Demo.providers Demo.sunny) Demo.reliable (Demo.ask "00000000")).
  vm_compute. discriminate.
Defined.

End ConcreteWorld.
